(** * TMVA-models: the [Trainer] wrapper and [get_dataset] of the PyTorch notebooks

  The two notebooks (CNN and LSTM) share one [Trainer] (train / predict /
  score / save_model / load_model) and one [get_dataset].  Both are thin
  drivers of PyTorch, NumPy and root_numpy.  The driver code is embedded
  here as it is written; the framework calls it makes are the fields of
  two interfaces ([Torch] and [Numpy]) whose laws are the documented
  behaviour of those calls.

  Python floats are idealised as exact rationals ([Q]): rounding of the
  float operations themselves is outside the model, the explicit
  ['%.7f'] / ['%.6f'] formatting of the log is inside it. *)

From Stdlib Require Import ZArith QArith Qround Qabs Lia Lqa List Permutation.
From stdpp Require Import base list gmap strings.

Local Open Scope Z_scope.

(** ** Python values and control *)

Module Py.

Inductive exn : Set :=
| AssertionError
| ZeroDivisionError
| ValueError
| IndexError
| RuntimeError
| OSError.

Inductive result (A : Type) : Type :=
| Ok (a : A)
| Raise (e : exn).
Arguments Ok {A} a.
Arguments Raise {A} e.

Definition is_ok {A} (r : result A) : bool :=
  match r with Ok _ => true | Raise _ => false end.

(** [range(a, b)] *)
Definition range (a b : Z) : list Z := seqZ a (b - a).

(** [a % b] on ints: the sign follows the divisor, as [Z.modulo]; a zero
    divisor raises. *)
Definition mod_ (a b : Z) : result Z :=
  if b =? 0 then Raise ZeroDivisionError else Ok (a mod b).

(** [int(x)] on a float: truncation toward zero. *)
Definition int (x : Q) : Z := Z.quot (Qnum x) (Z.pos (Qden x)).

(** Normalisation of a slice bound against a length [n]: a negative bound
    counts from the end, and every bound is clamped into [0, n]. *)
Definition slice_bound (n : nat) (i : Z) : nat :=
  if i <? 0 then Z.to_nat (Z.max 0 (i + Z.of_nat n))
  else Z.to_nat (Z.min i (Z.of_nat n)).

(** [l[:i]] and [l[i:]] *)
Definition slice_to {A} (l : list A) (i : Z) : list A :=
  take (slice_bound (length l) i) l.
Definition slice_from {A} (l : list A) (i : Z) : list A :=
  drop (slice_bound (length l) i) l.

(** [[x] * k]: a non-positive count gives the empty list. *)
Definition repeat {A} (x : A) (k : Z) : list A := replicate (Z.to_nat k) x.

(** [float('%.<d>f' % x)]: [x] rounded to [d] decimals, ties to even. *)
Definition round_half_even (x : Q) : Z :=
  let f := Qfloor x in
  match (x - inject_Z f ?= 1 # 2)%Q with
  | Lt => f
  | Gt => f + 1
  | Eq => if Z.even f then f else f + 1
  end.

Definition format_f (d : nat) (x : Q) : Q :=
  let s := 10 ^ Z.of_nat d in
  (inject_Z (round_half_even (x * inject_Z s)) / inject_Z s)%Q.

End Py.

Import Py.

(** ** State and exceptions

  A computation reads and writes a world [W] and either returns or
  raises; the world it leaves behind is kept in both cases. *)

Definition M (W A : Type) : Type := W -> result A * W.

Definition ret {W A} (a : A) : M W A := fun w => (Ok a, w).

Definition bind {W A B} (c : M W A) (k : A -> M W B) : M W B :=
  fun w =>
    match c w with
    | (Ok a, w') => k a w'
    | (Raise e, w') => (Raise e, w')
    end.

Definition raise {W A} (e : exn) : M W A := fun w => (Raise e, w).

Definition lift {W A} (r : result A) : M W A := fun w => (r, w).

Definition get {W} : M W W := fun w => (Ok w, w).
Definition modify {W} (f : W -> W) : M W unit := fun w => (Ok tt, f w).

(** [assert b] *)
Definition assert {W} (b : bool) : M W unit :=
  if b then ret tt else raise AssertionError.

Declare Scope py_scope.
Delimit Scope py_scope with py.
Notation "'let*' x ':=' c 'in' k" := (bind c (fun x => k))
  (at level 10, x pattern, c at level 100, k at level 200) : py_scope.
Local Open Scope py_scope.

(** For loop over a list with a loop-carried state. *)
Fixpoint for_each {W A S} (xs : list A) (body : A -> S -> M W S) (s : S) : M W S :=
  match xs with
  | [] => ret s
  | x :: rest => let* s' := body x s in for_each rest body s'
  end.

(** ** The PyTorch calls made by the notebooks

  What [torch] does is not part of this repository; the calls the
  [Trainer] makes are taken as an interface.  A network is its
  architecture (the [nn.Module] tree, which the trainer never changes)
  together with its state dict (all parameters and buffers, by name). *)

Class Torch : Type := {
  Tensor : Type;
  Arch : Type;
  Input : Type;
  Optimizer : Type;
  Generator : Type;
  Blob : Type;
  (** [net(torch.FloatTensor(inputs)).cpu().numpy()], as the list of its
      rows; the flag is the module's training mode.  The CNN trainer's
      reshape of every input to [(1, imgsize, imgsize)] is part of it. *)
  net_call : Arch -> gmap string Tensor -> bool -> list Input -> result (list (list Q));
  (** [optim.SGD(net.parameters(), lr=lr, momentum=momentum)] *)
  SGD : gmap string Tensor -> Q -> Q -> Optimizer;
  (** One minibatch: [zero_grad], forward, [CrossEntropyLoss], [backward],
      [optimizer.step()]; returns the updated state dict and optimizer and
      [loss.item()]. *)
  sgd_step : Arch -> gmap string Tensor -> Optimizer -> list Input -> list Z ->
             gmap string Tensor * Optimizer * Q;
  (** The index order drawn by the [RandomSampler] of a shuffling loader. *)
  randperm : Generator -> nat -> list nat * Generator;
  (** [torch.save] / [torch.load] of a state dict, as bytes. *)
  torch_dumps : gmap string Tensor -> Blob;
  torch_loads : Blob -> option (gmap string Tensor);
  (** The networks map a batch to one output row per input row. *)
  net_call_rows : forall a p tr xs out,
    net_call a p tr xs = Ok out -> length out = length xs;
  randperm_perm : forall g n, Permutation (fst (randperm g n)) (seq 0 n);
  torch_loads_dumps : forall sd, torch_loads (torch_dumps sd) = Some sd
}.

Module Trainer.
Section WithTorch.
Context `{T : Torch}.

Record Net : Type := {
  arch : Arch;
  state_dict : gmap string Tensor;
  training : bool
}.

(** [self.net] and [self.cuda_flag] *)
Record Trainer : Type := {
  net : Net;
  cuda_flag : bool
}.

(** One line of the training log.  The ['timestamp'] entry of the JSON
    object is left out: wall-clock time is not modelled. *)
Record Log : Type := {
  log_epoch : Z;
  log_loss : Q;
  log_lr : Q
}.

Inductive Line : Type :=
| LogLine (l : Log)
| TextLine (s : string).

Inductive Chunk : Type :=
| Text (l : Line)
| Pickled (b : Blob).

Record World : Type := {
  gen : Generator;
  stdout : list Line;
  files : gmap string (list Chunk)
}.

Definition print (l : Line) : M World unit :=
  modify (fun w => {| gen := gen w; stdout := stdout w ++ [l]; files := files w |}).

(** [with open(path, 'a') as f: f.write(line)] *)
Definition append_line (path : string) (l : Line) : M World unit :=
  modify (fun w =>
    {| gen := gen w; stdout := stdout w;
       files := <[path := default [] (files w !! path) ++ [Text l]]> (files w) |}).

(** *** DataLoader *)

(** [TensorDataset(inputs, labels)] asserts equal first dimensions. *)
Definition TensorDataset (X : list Input) (Y : list Z) : M World (list (Input * Z)) :=
  let* _ := assert (length X =? length Y)%nat in
  ret (zip X Y).

Record DataLoader : Type := {
  dataset : list (Input * Z);
  batch_size : Z
}.

(** [DataLoader(dataset, batch_size=batch_size, shuffle=True)]: the batch
    size must be positive.  (Older PyTorch releases also reject an empty
    data set here; with the newer ones an empty data set fails at the
    division by [len(trainloader)] below.) *)
Definition DataLoader_new (ds : list (Input * Z)) (bs : Z) : M World DataLoader :=
  if bs <=? 0 then raise ValueError
  else ret {| dataset := ds; batch_size := bs |}.

(** [len(trainloader)], with [drop_last=False] *)
Definition DataLoader_len (dl : DataLoader) : Z :=
  (Z.of_nat (length (dataset dl)) + batch_size dl - 1) / batch_size dl.

(** [BatchSampler.__iter__]: indices are collected into [batch]; a full
    batch is yielded, and so is a non-empty rest at the end. *)
Fixpoint batch_iter (bs : nat) (batch : list nat) (idxs : list nat) : list (list nat) :=
  match idxs with
  | [] => match batch with [] => [] | _ => [batch] end
  | i :: rest =>
      let batch' := batch ++ [i] in
      if (length batch' =? bs)%nat then batch' :: batch_iter bs [] rest
      else batch_iter bs batch' rest
  end.

(** [for data in trainloader]: one pass draws a fresh order. *)
Definition DataLoader_iter (dl : DataLoader) : M World (list (list (Input * Z))) :=
  fun w =>
    let '(perm, g) := randperm (gen w) (length (dataset dl)) in
    (Ok (map (fun idxs => omap (fun i => dataset dl !! i) idxs)
             (batch_iter (Z.to_nat (batch_size dl)) [] perm)),
     {| gen := g; stdout := stdout w; files := files w |}).

(** *** train *)

(** What one epoch did.  The method itself returns [None]; the model
    returns this history so that the run can be observed. *)
Record EpochRun : Type := {
  run_epoch : Z;
  run_lr : Q;              (* the lr the epoch's optimizer was built with *)
  run_losses : list Q;     (* loss.item() of every batch, in order *)
  run_batches : Z;         (* len(trainloader) *)
  run_tot_loss : Q;        (* tot_loss after the division *)
  run_log : Log
}.

Record TrainState : Type := {
  ts_lr : Q;
  ts_net : Net;
  ts_history : list EpochRun
}.

(** The inner loop over the batches of one epoch. *)
Definition batch_loop (a : Arch) (batches : list (list (Input * Z)))
    (init : gmap string Tensor * Optimizer * Q * list Q)
    : gmap string Tensor * Optimizer * Q * list Q :=
  fold_left
    (fun '(sd, opt, tot_loss, losses) data =>
       let inputs := map fst data in
       let labels := map snd data in
       let '(sd', opt', loss) := sgd_step a sd opt inputs labels in
       (sd', opt', (tot_loss + loss)%Q, losses ++ [loss]))
    batches init.

(** [x / n] for a float [x] and an int [n] *)
Definition float_div (x : Q) (n : Z) : result Q :=
  if n =? 0 then Raise ZeroDivisionError else Ok (x / inject_Z n)%Q.

Definition train_epoch (trainloader : DataLoader) (decay : Z) (logging : bool)
    (log_file : option string) (epoch : Z) (s : TrainState) : M World TrainState :=
  (* Decreasing the learning rate *)
  let* r := lift (mod_ epoch decay) in
  let lr := if r =? 0 then (ts_lr s / 3)%Q else ts_lr s in
  let optimizer := SGD (state_dict (ts_net s)) lr (9 # 10) in
  let* batches := DataLoader_iter trainloader in
  let '(sd, _, tot_loss, losses) :=
    batch_loop (arch (ts_net s)) batches (state_dict (ts_net s), optimizer, 0%Q, []) in
  let* tot_loss := lift (float_div tot_loss (DataLoader_len trainloader)) in
  (* logging statistics *)
  let log := {| log_epoch := epoch;
                log_loss := format_f 7 tot_loss;
                log_lr := format_f 6 lr |} in
  let* _ := if logging then print (LogLine log) else ret tt in
  let* _ := match log_file with
            | Some path => append_line path (LogLine log)
            | None => ret tt
            end in
  ret {| ts_lr := lr;
         ts_net := {| arch := arch (ts_net s); state_dict := sd;
                      training := training (ts_net s) |};
         ts_history := ts_history s ++
           [{| run_epoch := epoch; run_lr := lr; run_losses := losses;
               run_batches := DataLoader_len trainloader;
               run_tot_loss := tot_loss; run_log := log |}] |}.

(** The CNN trainer first reshapes every [x] of [X] to
    [(1, imgsize, imgsize)]; the inputs are taken in that shape. *)
Definition train (self : Trainer) (X : list Input) (Y : list Z)
    (epochs : Z) (lr : Q) (batch_size : Z) (decay : Z)
    (logging : bool) (log_file : option string)
    : M World (list EpochRun * Trainer) :=
  let* train_dataset := TensorDataset X Y in
  let* trainloader := DataLoader_new train_dataset batch_size in
  (* self.net.train() *)
  let net0 := {| arch := arch (net self); state_dict := state_dict (net self);
                 training := true |} in
  let* s := for_each (range 1 (epochs + 1))
              (train_epoch trainloader decay logging log_file)
              {| ts_lr := lr; ts_net := net0; ts_history := [] |} in
  let* _ := print (TextLine "Finished Training") in
  ret (ts_history s, {| net := ts_net s; cuda_flag := cuda_flag self |}).

(** *** predict *)

(** [np.argmax] of one row: the first index holding the maximum.
    [best_i], [best] are the running maximum and [i] the next index. *)
Fixpoint argmax_from (best_i : nat) (best : Q) (i : nat) (row : list Q) : nat :=
  match row with
  | [] => best_i
  | x :: rest =>
      if Qlt_le_dec best x then argmax_from i x (S i) rest
      else argmax_from best_i best (S i) rest
  end.

(** An empty row has no argmax: NumPy raises [ValueError]. *)
Definition argmax_row (row : list Q) : result Z :=
  match row with
  | [] => Raise ValueError
  | x :: rest => Ok (Z.of_nat (argmax_from 0 x 1 rest))
  end.

Fixpoint map_result {A B} (f : A -> result B) (l : list A) : result (list B) :=
  match l with
  | [] => Ok []
  | x :: rest =>
      match f x with
      | Raise e => Raise e
      | Ok y =>
          match map_result f rest with
          | Raise e => Raise e
          | Ok ys => Ok (y :: ys)
          end
      end
  end.

(** [np.argmax(labels, axis=1)] *)
Definition np_argmax_axis1 (labels : list (list Q)) : result (list Z) :=
  map_result argmax_row labels.

(** [self.net.eval()] *)
Definition eval_mode (self : Trainer) : Trainer :=
  {| net := {| arch := arch (net self); state_dict := state_dict (net self);
               training := false |};
     cuda_flag := cuda_flag self |}.

Definition predict (self : Trainer) (inputs : list Input) : M World (list Z * Trainer) :=
  let self := eval_mode self in
  let* labels := lift (net_call (arch (net self)) (state_dict (net self))
                                (training (net self)) inputs) in
  let* r := lift (np_argmax_axis1 labels) in
  ret (r, self).

(** *** score *)

Inductive pyfloat : Type :=
| Num (q : Q)
| NaN.

Definition sum_bools (l : list bool) : Z :=
  fold_right (fun (b : bool) acc => (if b then 1 else 0) + acc) 0 l.

(** [np.sum(pred == Y)].  Equal lengths compare element by element; a
    length-one side is broadcast; any other pair of lengths makes the
    comparison the scalar [False] (NumPy of the notebooks' time). *)
Definition np_sum_eq (pred Y : list Z) : Z :=
  if (length pred =? length Y)%nat then sum_bools (zip_with Z.eqb pred Y)
  else match pred, Y with
       | _, [y] => sum_bools (map (fun p => p =? y) pred)
       | [p], _ => sum_bools (map (fun y => p =? y) Y)
       | _, _ => 0
       end.

(** A NumPy integer divided by [len(Y)]: [0 / 0] is [nan], not an
    exception (the sum is [0] whenever [Y] is empty). *)
Definition np_true_div (s : Z) (n : Z) : pyfloat :=
  if n =? 0 then NaN else Num (inject_Z s / inject_Z n)%Q.

Definition score (self : Trainer) (X : list Input) (Y : list Z)
    : M World (pyfloat * Trainer) :=
  let* (pred, self) := predict self X in
  let acc := np_true_div (np_sum_eq pred Y) (Z.of_nat (length Y)) in
  ret (acc, self).

(** *** save_model / load_model *)

(** [torch.save(obj, path)] replaces the file by the pickled object. *)
Definition torch_save (sd : gmap string Tensor) (path : string) : M World unit :=
  modify (fun w =>
    {| gen := gen w; stdout := stdout w;
       files := <[path := [Pickled (torch_dumps sd)]]> (files w) |}).

Inductive device : Set := cpu | cuda.

(** [torch.load(path, map_location=...)]: [map_location] moves the
    tensors between devices and leaves their values alone. *)
Definition torch_load (path : string) (map_location : option device)
    : M World (gmap string Tensor) :=
  let* w := get in
  match files w !! path with
  | None => raise OSError
  | Some [Pickled b] =>
      match torch_loads b with
      | Some sd => ret sd
      | None => raise RuntimeError
      end
  | Some _ => raise RuntimeError
  end.

(** [model.load_state_dict(sd)] with the default [strict=True]: the key
    sets must agree, else [RuntimeError]. *)
Definition load_state_dict (model : Net) (sd : gmap string Tensor) : result Net :=
  if decide (dom sd = dom (state_dict model))
  then Ok {| arch := arch model; state_dict := sd; training := training model |}
  else Raise RuntimeError.

Definition save_model (self : Trainer) (checkpoint_path : string)
    (model : option Net) : M World unit :=
  let model := match model with None => net self | Some m => m end in
  torch_save (state_dict model) checkpoint_path.

(** Returns the trainer and the model that was loaded into (which is
    [self.net] when no model is passed). *)
Definition load_model (self : Trainer) (checkpoint_path : string)
    (model : option Net) : M World (Trainer * Net) :=
  let target := match model with None => net self | Some m => m end in
  let* sd := if cuda_flag self
             then torch_load checkpoint_path None
             else torch_load checkpoint_path (Some cpu) in
  let* target' := lift (load_state_dict target sd) in
  match model with
  | None => ret ({| net := target'; cuda_flag := cuda_flag self |}, target')
  | Some _ => ret (self, target')
  end.

End WithTorch.
End Trainer.

(** ** The NumPy and root_numpy calls made by [get_dataset] *)

Class Numpy : Type := {
  Rec : Type;            (* one entry of a tree, as root2array yields it *)
  Entry : Type;          (* the flat row the notebook makes of an entry *)
  RandomState : Type;    (* state of the global generator [np.random] *)
  np_seed : Z -> RandomState;
  (** [np.random.shuffle(a)]: the new order of the first axis of [a]. *)
  np_shuffle : RandomState -> list Entry -> list Entry * RandomState;
  (** [np.random.permutation(n)] *)
  np_permutation : RandomState -> nat -> list nat * RandomState;
  np_shuffle_perm : forall g l, Permutation (fst (np_shuffle g l)) l;
  np_permutation_perm : forall g n, Permutation (fst (np_permutation g n)) (seq 0 n)
}.

Module Dataset.

(** An array, as the list of its items along the first axis together
    with its number of dimensions. *)
Record ndarray (A : Type) : Type := {
  ndim : nat;
  items : list A
}.
Arguments ndim {A} _.
Arguments items {A} _.

(** [np.concatenate(arrays, axis=0)]: every array must have the number
    of dimensions of the first (the rows themselves are alike in
    shape). *)
Definition np_concatenate {A} (arrays : list (ndarray A)) : result (ndarray A) :=
  match arrays with
  | [] => Raise ValueError
  | a :: rest =>
      if forallb (fun b => (ndim b =? ndim a)%nat) rest
      then Ok {| ndim := ndim a; items := concat (map items arrays) |}
      else Raise ValueError
  end.

(** [np.concatenate] of Python lists of ints *)
Definition np_concatenate_lists (ls : list (list Z)) : result (list Z) :=
  match ls with
  | [] => Raise ValueError
  | _ => Ok (concat ls)
  end.

(** [a[perm]] for an index array [perm] *)
Fixpoint take_items {A} (l : list A) (perm : list nat) : result (list A) :=
  match perm with
  | [] => Ok []
  | i :: rest =>
      match l !! i with
      | None => Raise IndexError
      | Some x =>
          match take_items l rest with
          | Raise e => Raise e
          | Ok xs => Ok (x :: xs)
          end
      end
  end.

Section WithNumpy.
Context `{N : Numpy}.

(** The names of the two trees and the conversion of an entry to a row
    are what the two notebooks differ in:
    CNN:  ['sig_tree'], ['bkg_tree'], [img[0]];
    LSTM: ['sgn'], ['bkg'], [np.array(list(img)).reshape(-1)]. *)
Variable sgn_tree bkg_tree : string.
Variable row_of : Rec -> Entry.

Inductive Event : Type :=
| ReadTree (data_file tree : string).

Record World : Type := {
  rng : RandomState;
  disk : gmap string (gmap string (list Rec));
  events : list Event
}.

(** [np.array(rows)]: rows are arrays themselves, so the result has two
    dimensions, except that [np.array([])] has shape [(0,)]. *)
Definition np_array (rows : list Entry) : ndarray Entry :=
  {| ndim := match rows with [] => 1 | _ => 2 end; items := rows |}.

Definition root2array (data_file tree : string) : M World (list Rec) :=
  fun w =>
    let w' := {| rng := rng w; disk := disk w;
                 events := events w ++ [ReadTree data_file tree] |} in
    match disk w !! data_file with
    | None => (Raise OSError, w')
    | Some f =>
        match f !! tree with
        | None => (Raise OSError, w')
        | Some recs => (Ok recs, w')
        end
    end.

Definition seed (s : Z) : M World unit :=
  modify (fun w => {| rng := np_seed s; disk := disk w; events := events w |}).

Definition shuffle (data : ndarray Entry) : M World (ndarray Entry) :=
  fun w =>
    let '(l, g) := np_shuffle (rng w) (items data) in
    (Ok {| ndim := ndim data; items := l |},
     {| rng := g; disk := disk w; events := events w |}).

Definition permutation (n : nat) : M World (list nat) :=
  fun w =>
    let '(p, g) := np_permutation (rng w) n in
    (Ok p, {| rng := g; disk := disk w; events := events w |}).

(** The four lists the loop appends to. *)
Record Parts : Type := {
  X_train : list (ndarray Entry);
  Y_train : list (list Z);
  X_test : list (ndarray Entry);
  Y_test : list (list Z)
}.

Definition len {A} (a : ndarray A) : Z := Z.of_nat (length (items a)).

Definition slice_to_arr {A} (a : ndarray A) (i : Z) : ndarray A :=
  {| ndim := ndim a; items := slice_to (items a) i |}.
Definition slice_from_arr {A} (a : ndarray A) (i : Z) : ndarray A :=
  {| ndim := ndim a; items := slice_from (items a) i |}.

(** Body of [for label, data in enumerate(tree_data)] *)
Definition split_tree (test_split : Q) (ld : Z * ndarray Entry) (p : Parts)
    : M World Parts :=
  let '(label, data) := ld in
  let* data := shuffle data in
  let test_size := int (inject_Z (len data) * test_split) in
  ret {| X_train := X_train p ++ [slice_to_arr data (- test_size)];
         X_test := X_test p ++ [slice_from_arr data (- test_size)];
         Y_train := Y_train p ++ [repeat label (len data - test_size)];
         Y_test := Y_test p ++ [repeat label test_size] |}.

Definition enumerate {A} (l : list A) : list (Z * A) :=
  zip (seqZ 0 (Z.of_nat (length l))) l.

Definition Split : Type := ndarray Entry * list Z.

(** [X = X[perm]; Y = Y[perm]] for a fresh [perm] over [len(X)] *)
Definition shuffle_split (X : ndarray Entry) (Y : list Z) : M World Split :=
  let* perm := permutation (length (items X)) in
  let* X' := lift (take_items (items X) perm) in
  let* Y' := lift (take_items Y perm) in
  ret ({| ndim := ndim X; items := X' |}, Y').

Definition get_dataset (data_file : string) (test_split : Q) : M World (Split * Split) :=
  let* _ := assert (Qle_bool 0 test_split && Qle_bool test_split (3 # 10)) in
  (* Load data *)
  let* signal := root2array data_file sgn_tree in
  let* background := root2array data_file bkg_tree in
  let tree_data := [np_array (map row_of signal); np_array (map row_of background)] in
  (* Deterministic Random *)
  let* _ := seed 0 in
  let* p := for_each (enumerate tree_data) (split_tree test_split)
              {| X_train := []; Y_train := []; X_test := []; Y_test := [] |} in
  let* X_train := lift (np_concatenate (X_train p)) in
  let* X_test := lift (np_concatenate (X_test p)) in
  let* Y_train := lift (np_concatenate_lists (Y_train p)) in
  let* Y_test := lift (np_concatenate_lists (Y_test p)) in
  let* _ := assert (length Y_train =? length (items X_train))%nat in
  let* _ := assert (length Y_test =? length (items X_test))%nat in
  (* Shuffling the data *)
  let* train := shuffle_split X_train Y_train in
  let* test := shuffle_split X_test Y_test in
  ret (train, test).

End WithNumpy.

(** The two notebooks. *)
Definition get_dataset_CNN `{N : Numpy} (first_field : Rec -> Entry) :=
  get_dataset "sig_tree" "bkg_tree" first_field.
Definition get_dataset_LSTM `{N : Numpy} (flatten : Rec -> Entry) :=
  get_dataset "sgn" "bkg" flatten.

End Dataset.

(** ** Small concrete frameworks

  Instances of the two interfaces on which the models can be run: a
  network that returns its input rows as scores and whose batch loss is
  the first feature of the first input, a loader that keeps the order,
  and a generator whose state is a counter that rotates what it
  shuffles. *)

Module Toy.

Definition first_feature (inputs : list (list Q)) : Q :=
  match inputs with
  | (x :: _) :: _ => x
  | _ => 0%Q
  end.

Definition torch : Torch := {|
  Tensor := Q;
  Arch := unit;
  Input := list Q;
  Optimizer := Q;
  Generator := nat;
  Blob := list (string * Q);
  net_call := fun _ _ _ xs => Ok xs;
  SGD := fun _ lr _ => lr;
  sgd_step := fun _ sd opt inputs _ => (sd, opt, first_feature inputs);
  randperm := fun g n => (seq 0 n, S g);
  torch_dumps := map_to_list;
  torch_loads := fun b => Some (list_to_map b);
  net_call_rows := fun _ _ _ xs out H =>
    match H in _ = r return match r with Ok o => length o = length xs | Raise _ => True end
    with eq_refl => eq_refl end;
  randperm_perm := fun g n => Permutation_refl (seq 0 n);
  torch_loads_dumps := fun sd => f_equal Some (list_to_map_to_list sd)
|}.

Definition numpy : Numpy := {|
  Rec := Z;
  Entry := Z;
  RandomState := nat;
  np_seed := Z.to_nat;
  np_shuffle := fun g l => (rotate g l, S g);
  np_permutation := fun g n => (rotate g (seq 0 n), S g);
  np_shuffle_perm := fun g l =>
    Permutation_trans
      (Permutation_app_comm (drop (g mod length l)%nat l) (take (g mod length l)%nat l))
      (eq_ind_r (fun x => Permutation x l) (Permutation_refl l)
                (take_drop (g mod length l)%nat l));
  np_permutation_perm := fun g n =>
    Permutation_trans
      (Permutation_app_comm (drop (g mod length (seq 0 n))%nat (seq 0 n))
                            (take (g mod length (seq 0 n))%nat (seq 0 n)))
      (eq_ind_r (fun x => Permutation x (seq 0 n)) (Permutation_refl (seq 0 n))
                (take_drop (g mod length (seq 0 n))%nat (seq 0 n)))
|}.

(** Three inputs with two scores each, and their labels. *)
Definition inputs : list (list Q) := [[1 # 1024; 3]; [1 # 3; 0]; [5; 5]]%Q.
Definition labels : list Z := [0; 1; 0].

(** A disk with one file holding a signal tree of five entries and a
    background tree of ten. *)
Definition sgn : list Z := [1; 2; 3; 4; 5].
Definition bkg : list Z := [10; 20; 30; 40; 50; 60; 70; 80; 90; 100].
Definition trees : gmap string (list Z) := {[ "sgn" := sgn; "bkg" := bkg ]}.
Definition disk : gmap string (gmap string (list Z)) := {[ "data.root" := trees ]}.

Definition world (g : nat) : @Dataset.World numpy :=
  @Dataset.Build_World numpy g disk [].

Definition trainer : @Trainer.Trainer torch :=
  @Trainer.Build_Trainer torch
    (@Trainer.Build_Net torch tt {[ "w" := (1 # 2)%Q ]} false) false.

Definition host : @Trainer.World torch :=
  @Trainer.Build_World torch 0%nat [] ∅.

End Toy.

(** ** Notions used in the statements *)

(** [k] is a multiple of [decay]: decided through the remainder. *)
#[global] Instance Zdivide_decision (a b : Z) : Decision (a | b).
Proof.
  destruct (Z.eq_dec (b mod a) 0) as [H|H]; [left|right].
  - destruct (Z.eq_dec a 0) as [->|Ha].
    + rewrite Z.mod_0_r in H. subst b. apply Z.divide_0_r.
    + apply Z.mod_divide; assumption.
  - intros D. apply H. destruct (Z.eq_dec a 0) as [->|Ha].
    + apply Z.divide_0_l in D. subst b. reflexivity.
    + apply Z.mod_divide; assumption.
Defined.







(** [i] is the first index at which [row] takes its maximum. *)
Definition is_argmax (row : list Q) (i : nat) : Prop :=
  exists m, row !! i = Some m /\
    (forall j x, row !! j = Some x -> (x <= m)%Q) /\
    (forall j x, row !! j = Some x -> (j < i)%nat -> (x < m)%Q).

(** The number of positions at which [pred] and [Y] agree. *)
Definition matches (pred Y : list Z) : nat :=
  length (filter (fun p : Z * Z => p.1 = p.2) (zip pred Y)).

(** Two runs of [c] from worlds related by [R] return the same result and,
    when they return, leave worlds related by [R']. *)
Definition relates {W A} (R R' : W -> W -> Prop) (c : M W A) : Prop :=
  forall w1 w2, R w1 w2 ->
    fst (c w1) = fst (c w2) /\
    (is_ok (fst (c w1)) = true -> R' (snd (c w1)) (snd (c w2))).

Section TrainerNotions.
Context `{T : Torch}.
Import Trainer.


End TrainerNotions.

Section DatasetNotions.
Context `{N : Numpy}.
Import Dataset.

(** [0 <= test_split <= 0.3] *)
Definition in_range (test_split : Q) : bool :=
  Qle_bool 0 test_split && Qle_bool test_split (3 # 10).

(** [int(len(data) * test_split)] *)
Definition test_size (test_split : Q) (data : list Entry) : Z :=
  int (inject_Z (Z.of_nat (length data)) * test_split).

(** The four lists after the loop, for shuffled trees [s] and [b] whose
    arrays have [dS] and [dB] dimensions. *)
Definition parts_of (test_split : Q) (dS : nat) (s : list Entry) (dB : nat) (b : list Entry)
    : Parts :=
  let tS := test_size test_split s in
  let tB := test_size test_split b in
  {| X_train := [ {| ndim := dS; items := slice_to s (- tS) |};
                  {| ndim := dB; items := slice_to b (- tB) |} ];
     X_test := [ {| ndim := dS; items := slice_from s (- tS) |};
                 {| ndim := dB; items := slice_from b (- tB) |} ];
     Y_train := [ repeat 0 (Z.of_nat (length s) - tS); repeat 1 (Z.of_nat (length b) - tB) ];
     Y_test := [ repeat 0 tS; repeat 1 tB ] |}.

(** What [get_dataset] does after the loop. *)
Definition finish_dataset (p : Parts) : M World (Split * Split) :=
  let* X_train := lift (np_concatenate (X_train p)) in
  let* X_test := lift (np_concatenate (X_test p)) in
  let* Y_train := lift (np_concatenate_lists (Y_train p)) in
  let* Y_test := lift (np_concatenate_lists (Y_test p)) in
  let* _ := assert (length Y_train =? length (items X_train))%nat in
  let* _ := assert (length Y_test =? length (items X_test))%nat in
  let* train := shuffle_split X_train Y_train in
  let* test := shuffle_split X_test Y_test in
  ret (train, test).

(** The splits before the final shuffles. *)
Definition pre_X_train (ts : Q) (s b : list Entry) : list Entry :=
  slice_to s (- test_size ts s) ++ slice_to b (- test_size ts b).
Definition pre_X_test (ts : Q) (s b : list Entry) : list Entry :=
  slice_from s (- test_size ts s) ++ slice_from b (- test_size ts b).
Definition pre_Y_train (ts : Q) (s b : list Entry) : list Z :=
  repeat 0 (Z.of_nat (length s) - test_size ts s) ++
  repeat 1 (Z.of_nat (length b) - test_size ts b).
Definition pre_Y_test (ts : Q) (s b : list Entry) : list Z :=
  repeat 0 (test_size ts s) ++ repeat 1 (test_size ts b).

(** A tree is split well when a test size of zero only occurs for an
    empty tree: then the two slices cover it and match its labels. *)
Definition well_split (ts : Q) (l : list Entry) : Prop :=
  test_size ts l = 0 -> l = [].

Definition with_label (label : Z) (x : Entry) : Entry * Z := (x, label).

(** The three ways a call that read both trees can end. *)
Inductive outcome (row_of : Rec -> Entry) (ts : Q) (signal background : list Rec)
    : result (Split * Split) -> Prop :=
| out_value_error :
    ~ (signal = [] <-> background = []) ->
    outcome row_of ts signal background (Raise ValueError)
| out_assertion :
    (signal = [] <-> background = []) ->
    ~ (well_split ts (map row_of signal) /\ well_split ts (map row_of background)) ->
    outcome row_of ts signal background (Raise AssertionError)
| out_ok s b d Xtr Ytr Xte Yte :
    Permutation s (map row_of signal) -> Permutation b (map row_of background) ->
    well_split ts s -> well_split ts b ->
    Permutation (zip Xtr Ytr) (zip (pre_X_train ts s b) (pre_Y_train ts s b)) ->
    Permutation (zip Xte Yte) (zip (pre_X_test ts s b) (pre_Y_test ts s b)) ->
    length Xtr = length Ytr -> length Xte = length Yte ->
    Permutation Xtr (pre_X_train ts s b) -> Permutation Xte (pre_X_test ts s b) ->
    outcome row_of ts signal background
      (Ok (({| ndim := d; items := Xtr |}, Ytr), ({| ndim := d; items := Xte |}, Yte))).

(** Worlds that hold the same file, and worlds that moreover have the
    generator in the same state. *)
Definition same_file (data_file : string) (w1 w2 : World) : Prop :=
  disk w1 !! data_file = disk w2 !! data_file.
Definition same_rng (data_file : string) (w1 w2 : World) : Prop :=
  rng w1 = rng w2 /\ same_file data_file w1 w2.

End DatasetNotions.

(** ** The two networks, at the level of tensor shapes

    [ConvBlock], [Net] (CNN notebook) and [LSTMnet] (LSTM notebook) are
    compositions of PyTorch layers.  What the notebooks themselves fix is
    how the layers are sized and chained; that is embedded here on the
    shapes of the tensors.  The layers' own shape rules are those of the
    PyTorch documentation (stride 1, dilation 1, as the notebooks leave
    them). *)

Module Shapes.

Definition shape : Type := list Z.

(** Number of elements of a tensor of that shape. *)
Definition numel (s : shape) : Z := fold_left Z.mul s 1.




(** [x.view(-1, n)]: the first dimension is inferred from the number of
    elements. *)
Definition view_rows (n : Z) (x : shape) : result shape :=
  if (1 <=? n) && (numel x mod n =? 0) then Ok [numel x / n; n]
  else Raise RuntimeError.


(** [x.size(i)] *)
Definition size (x : shape) (i : nat) : result Z :=
  match x !! i with
  | Some d => Ok d
  | None => Raise IndexError
  end.





(** *** ConvBlock *)

Record ConvBlock : Type := {
  cb_in_filters : Z;
  cb_out_filters : Z;
  cb_kernel_size : Z;
  cb_padding : Z;
  cb_bn : bool               (* self.bn; self.b1 is BatchNorm2d(out_filters) *)
}.


(** *** Net *)

Record Net : Type := {
  imgsize : Z;
  conv1 : ConvBlock;
  conv2 : ConvBlock;
  fc1_in : Z;  fc1_out : Z;
  fc2_in : Z;  fc2_out : Z
}.


(** [num_flat_features]: the product of all dimensions except the batch
    dimension. *)
Definition num_flat_features (x : shape) : Z :=
  let size := tail x in
  fold_left (fun num_features s => num_features * s) size 1.




(** *** LSTMnet *)






End Shapes.

(** ** Notions used in the further properties *)


Section CheckpointNotions.
Context `{T : Torch}.
Import Trainer.

(** What the log lines of a run are in a log file. *)
Definition log_chunks (runs : list EpochRun) : list Chunk :=
  map (fun run => Text (LogLine (run_log run))) runs.

(** [model] after [if model is None: model = self.net] *)
Definition target (self : Trainer) (model : option Net) : Net :=
  match model with None => net self | Some m => m end.

(** [tgt] after a successful [tgt.load_state_dict(sd)] *)
Definition loaded_into (tgt : Net) (sd : gmap string Tensor) : Net :=
  {| arch := arch tgt; state_dict := sd; training := training tgt |}.

End CheckpointNotions.

(** * Properties *)

(** ** Running a computation *)

Lemma bind_ok {W A B} (c : M W A) (k : A -> M W B) w a w1 :
  c w = (Ok a, w1) -> bind c k w = k a w1.
Proof. intros H. unfold bind. rewrite H. reflexivity. Qed.

Lemma bind_raise {W A B} (c : M W A) (k : A -> M W B) w e w1 :
  c w = (Raise e, w1) -> bind c k w = (Raise e, w1).
Proof. intros H. unfold bind. rewrite H. reflexivity. Qed.

Lemma relates_bind {W A B} (R R' R'' : W -> W -> Prop) (c : M W A) (k : A -> M W B) :
  relates R R' c -> (forall a, relates R' R'' (k a)) -> relates R R'' (bind c k).
Proof.
  intros Hc Hk w1 w2 HR. destruct (Hc w1 w2 HR) as [Hr Hw]. unfold bind.
  destruct (c w1) as [r1 w1'], (c w2) as [r2 w2']. simpl in *. subst r2.
  destruct r1 as [a|e]; [|split; [reflexivity | discriminate]].
  apply Hk, Hw. reflexivity.
Qed.

Lemma relates_pure {W A} (R : W -> W -> Prop) (r : result A) : relates R R (lift r).
Proof. intros w1 w2 HR. split; [reflexivity | intros _; exact HR]. Qed.

Lemma relates_ret {W A} (R : W -> W -> Prop) (a : A) : relates R R (ret a).
Proof. exact (relates_pure R (Ok a)). Qed.

Lemma relates_assert {W} (R : W -> W -> Prop) (b : bool) : relates R R (assert b).
Proof. destruct b; [apply relates_ret | exact (relates_pure R (Raise AssertionError))]. Qed.

Lemma relates_for_each {W A S} (R : W -> W -> Prop) (body : A -> S -> M W S) xs :
  (forall x s, relates R R (body x s)) -> forall s, relates R R (for_each xs body s).
Proof.
  intros Hb. induction xs as [|x xs IH]; intros s; simpl.
  - apply relates_ret.
  - eapply relates_bind; [apply Hb | exact IH].
Qed.

(** ** Arithmetic of the schedule and of the log *)










(** ** The trainer *)

Section TrainerProofs.
Context `{T : Torch}.
Import Trainer.












Lemma argmax_from_spec (row : list Q) : forall (pre : list Q) (bi : nat) (best : Q),
  pre !! bi = Some best ->
  (forall j x, pre !! j = Some x -> (x <= best)%Q) ->
  (forall j x, pre !! j = Some x -> (j < bi)%nat -> (x < best)%Q) ->
  is_argmax (pre ++ row) (argmax_from bi best (length pre) row).
Proof.
  induction row as [|x row IH]; intros pre bi best Hbi Hmax Hfirst; simpl.
  - rewrite app_nil_r. exists best. auto.
  - replace (pre ++ x :: row) with ((pre ++ [x]) ++ row) by (rewrite <- app_assoc; reflexivity).
    replace (S (length pre)) with (length (pre ++ [x])) by (rewrite length_app; simpl; lia).
    destruct (Qlt_le_dec best x) as [Hlt|Hle].
    + apply IH.
      * rewrite lookup_app_r by lia. rewrite Nat.sub_diag. reflexivity.
      * intros j y Hj. apply lookup_app_Some in Hj. destruct Hj as [Hj|[_ Hj]].
        -- apply Hmax in Hj. lra.
        -- destruct (j - length pre)%nat; simpl in Hj; [|discriminate].
           injection Hj as <-. lra.
      * intros j y Hj Hlt'. rewrite lookup_app_l in Hj by exact Hlt'.
        apply Hmax in Hj. lra.
    + apply IH.
      * rewrite lookup_app_l; [exact Hbi|]. apply lookup_lt_Some in Hbi. exact Hbi.
      * intros j y Hj. apply lookup_app_Some in Hj. destruct Hj as [Hj|[_ Hj]].
        -- apply Hmax in Hj. exact Hj.
        -- destruct (j - length pre)%nat; simpl in Hj; [|discriminate].
           injection Hj as <-. exact Hle.
      * intros j y Hj Hlt'. apply lookup_lt_Some in Hbi.
        rewrite lookup_app_l in Hj by lia. eapply Hfirst; eauto.
Qed.

Lemma argmax_row_spec (row : list Q) :
  row <> [] -> exists i, argmax_row row = Ok (Z.of_nat i) /\ is_argmax row i.
Proof.
  destruct row as [|x row]; [congruence|]. intros _.
  exists (argmax_from 0 x 1 row). split; [reflexivity|].
  apply (argmax_from_spec row [x] 0%nat x).
  - reflexivity.
  - intros [|j] y Hj; simpl in Hj; [injection Hj as <-; lra | discriminate].
  - intros j y _ Hlt. lia.
Qed.

Lemma np_argmax_axis1_spec (out : list (list Q)) :
  Forall (fun row => row <> []) out ->
  exists labels, np_argmax_axis1 out = Ok labels /\
    Forall2 (fun row l => exists i, l = Z.of_nat i /\ is_argmax row i) out labels.
Proof.
  unfold np_argmax_axis1. induction 1 as [|row out Hrow _ IH].
  - exists []. split; [reflexivity | constructor].
  - destruct (argmax_row_spec row Hrow) as (i & Hi & Hmax).
    destruct IH as (labels & Hl & Hall).
    exists (Z.of_nat i :: labels). simpl. rewrite Hi, Hl. split; [reflexivity|].
    constructor; [exists i; auto | exact Hall].
Qed.

Lemma predict_run (self : Trainer) (inputs : list Input) w out labels :
  net_call (arch (net self)) (state_dict (net self)) false inputs = Ok out ->
  np_argmax_axis1 out = Ok labels ->
  predict self inputs w = (Ok (labels, eval_mode self), w).
Proof.
  intros Hnet Hl. unfold predict, bind, lift, ret. simpl. rewrite Hnet, Hl. reflexivity.
Qed.

(** C3.  When the network returns one non-empty output row per input,
    [predict] returns one label per input row, and the label of a row is
    the index of the maximum entry of that row of the network output
    (the first such index, as [np.argmax] along axis 1 gives). *)
Theorem predict_argmax (self : Trainer) (inputs : list Input) w out :
  net_call (arch (net self)) (state_dict (net self)) false inputs = Ok out ->
  Forall (fun row => row <> []) out ->
  exists labels,
    predict self inputs w = (Ok (labels, eval_mode self), w) /\
    length labels = length inputs /\
    Forall2 (fun row l => exists i, l = Z.of_nat i /\ is_argmax row i) out labels.
Proof.
  intros Hnet Hrows.
  destruct (np_argmax_axis1_spec out Hrows) as (labels & Hl & Hall).
  exists labels. split; [|split].
  - apply (predict_run self inputs w out labels Hnet Hl).
  - apply net_call_rows in Hnet. apply Forall2_length in Hall. lia.
  - exact Hall.
Qed.

Lemma sum_bools_matches (pred Y : list Z) :
  sum_bools (zip_with Z.eqb pred Y) = Z.of_nat (matches pred Y).
Proof.
  unfold matches. revert Y. induction pred as [|p pred IH]; intros [|y Y]; try reflexivity.
  simpl. rewrite filter_cons. simpl. rewrite IH.
  destruct (Z.eqb_spec p y) as [E|E]; destruct (decide (p = y)); try contradiction.
  - simpl length. lia.
  - lia.
Qed.

Lemma matches_le (pred Y : list Z) : (matches pred Y <= length Y)%nat.
Proof.
  unfold matches. etransitivity; [apply length_filter|].
  rewrite length_zip_with. lia.
Qed.

Lemma matches_all (pred Y : list Z) :
  length pred = length Y -> matches pred Y = length Y <-> pred = Y.
Proof.
  unfold matches. revert Y. induction pred as [|p pred IH]; intros [|y Y] Hlen;
    simpl in Hlen; try discriminate.
  - simpl. tauto.
  - injection Hlen as Hlen. simpl zip_with. rewrite filter_cons. simpl.
    pose proof (length_filter (fun p : Z * Z => p.1 = p.2) (zip pred Y)) as Hle.
    rewrite length_zip_with in Hle.
    destruct (decide (p = y)) as [->|Hne]; simpl length.
    + split.
      * intros H. f_equal. apply IH; [exact Hlen | lia].
      * intros [= ->]. f_equal. apply IH; [exact Hlen | reflexivity].
    + split; [lia | congruence].
Qed.

(** C4.  For a non-empty label vector [Y] and an input [X] of the same
    length, [score X Y] is the number of positions at which [predict X]
    equals [Y], divided by [len Y]; it lies in [0, 1] and is 1 exactly
    when every prediction matches its label. *)
Theorem score_accuracy (self : Trainer) (X : list Input) (Y : list Z) w out :
  Y <> [] -> length X = length Y ->
  net_call (arch (net self)) (state_dict (net self)) false X = Ok out ->
  Forall (fun row => row <> []) out ->
  exists pred q,
    predict self X w = (Ok (pred, eval_mode self), w) /\
    score self X Y w = (Ok (Num q, eval_mode self), w) /\
    q = (inject_Z (Z.of_nat (matches pred Y)) / inject_Z (Z.of_nat (length Y)))%Q /\
    (0 <= q <= 1)%Q /\
    ((q == 1)%Q <-> pred = Y).
Proof.
  intros HY Hlen Hnet Hrows.
  destruct (np_argmax_axis1_spec out Hrows) as (pred & Harg & Hall).
  pose proof (predict_run self X w out pred Hnet Harg) as Hp.
  assert (Hl : length pred = length X).
  { apply net_call_rows in Hnet. apply Forall2_length in Hall. lia. }
  assert (Hn : (0 < length Y)%nat) by (destruct Y; [congruence | simpl; lia]).
  assert (HnQ : (0 < inject_Z (Z.of_nat (length Y)))%Q).
  { change 0%Q with (inject_Z 0). rewrite <- Zlt_Qlt. lia. }
  pose proof (matches_le pred Y) as Hle.
  exists pred, (inject_Z (Z.of_nat (matches pred Y)) / inject_Z (Z.of_nat (length Y)))%Q.
  split; [exact Hp|]. split; [|split; [reflexivity|split; [split|]]].
  - unfold score. erewrite bind_ok by exact Hp. unfold ret, np_true_div, np_sum_eq.
    destruct (Z.eqb_spec (Z.of_nat (length Y)) 0) as [?|_]; [lia|].
    replace (length pred =? length Y)%nat with true by (symmetry; apply Nat.eqb_eq; lia).
    rewrite sum_bools_matches. reflexivity.
  - apply Qle_shift_div_l; [exact HnQ|]. rewrite Qmult_0_l.
    change 0%Q with (inject_Z 0). rewrite <- Zle_Qle. lia.
  - apply Qle_shift_div_r; [exact HnQ|]. rewrite Qmult_1_l.
    rewrite <- Zle_Qle. lia.
  - rewrite <- matches_all by lia. split.
    + intros E.
      assert (Hnz : ~ (inject_Z (Z.of_nat (length Y)) == 0)%Q)
        by (apply Qnot_eq_sym, Qlt_not_eq, HnQ).
      assert (E' : (inject_Z (Z.of_nat (matches pred Y)) / inject_Z (Z.of_nat (length Y))
                    * inject_Z (Z.of_nat (length Y)) == inject_Z (Z.of_nat (matches pred Y)))%Q)
        by (field; exact Hnz).
      rewrite E, Qmult_1_l in E'. apply (proj1 (inject_Z_injective _ _)) in E'. lia.
    + intros ->. field. apply Qnot_eq_sym, Qlt_not_eq, HnQ.
Qed.


End TrainerProofs.

(** ** The data loader *)

Section DatasetProofs.
Context `{N : Numpy}.
Variable sgn_tree bkg_tree : string.
Variable row_of : Rec -> Entry.
Import Dataset.

(** Slices, index arrays and test sizes *)

Lemma int_nonneg (q : Q) : (0 <= q)%Q -> int q = Qfloor q.
Proof.
  destruct q as [n d]. unfold int, Qfloor, Qle. simpl. intros H.
  apply Z.quot_div_nonneg; lia.
Qed.

Lemma test_size_bounds (n : nat) (ts : Q) :
  (0 <= ts)%Q -> (ts <= 3 # 10)%Q ->
  0 <= int (inject_Z (Z.of_nat n) * ts) <= Z.of_nat n.
Proof.
  intros H0 H1.
  assert (Hn : (0 <= inject_Z (Z.of_nat n))%Q).
  { change 0%Q with (inject_Z 0). rewrite <- Zle_Qle. lia. }
  assert (Hp : (0 <= inject_Z (Z.of_nat n) * ts)%Q) by (apply Qmult_le_0_compat; assumption).
  rewrite int_nonneg by exact Hp. split.
  - change 0 with (Qfloor 0). apply Qfloor_resp_le. exact Hp.
  - rewrite <- (Qfloor_Z (Z.of_nat n)) at 2. apply Qfloor_resp_le.
    rewrite <- (Qmult_1_r (inject_Z (Z.of_nat n))) at 2.
    apply Qmult_le_compat_nonneg; split; lra.
Qed.

Lemma slice_to_zero {A} (l : list A) : slice_to l (- 0) = [].
Proof. unfold slice_to, slice_bound. simpl. rewrite Z.min_l by lia. reflexivity. Qed.

Lemma slice_from_zero {A} (l : list A) : slice_from l (- 0) = l.
Proof. unfold slice_from, slice_bound. simpl. rewrite Z.min_l by lia. reflexivity. Qed.

Lemma slice_bound_neg (n : nat) (t : Z) :
  0 < t <= Z.of_nat n -> slice_bound n (- t) = (n - Z.to_nat t)%nat.
Proof.
  intros H. unfold slice_bound. destruct (Z.ltb_spec (- t) 0); lia.
Qed.

Lemma slice_split {A} (l : list A) (t : Z) :
  0 < t <= Z.of_nat (length l) ->
  slice_to l (- t) ++ slice_from l (- t) = l /\
  length (slice_to l (- t)) = (length l - Z.to_nat t)%nat /\
  length (slice_from l (- t)) = Z.to_nat t.
Proof.
  intros H. unfold slice_to, slice_from. rewrite slice_bound_neg by exact H.
  split; [apply take_drop|]. rewrite length_take, length_drop. lia.
Qed.

Lemma slice_lengths {A} (l : list A) (t : Z) :
  0 <= t <= Z.of_nat (length l) ->
  length (slice_to l (- t)) = (if (t =? 0)%Z then 0 else length l - Z.to_nat t)%nat /\
  length (slice_from l (- t)) = (if (t =? 0)%Z then length l else Z.to_nat t)%nat.
Proof.
  intros H. destruct (Z.eqb_spec t 0) as [->|Hne].
  - rewrite slice_to_zero, slice_from_zero. auto.
  - destruct (slice_split l t) as (_ & H1 & H2); [lia | auto].
Qed.

Lemma length_repeat {A} (x : A) (k : Z) : length (repeat x k) = Z.to_nat k.
Proof. apply length_replicate. Qed.

Lemma zip_labels {A} (l : list A) (label k : Z) :
  length l = Z.to_nat k -> zip l (repeat label k) = (fun x => (x, label)) <$> l.
Proof. intros H. unfold repeat. apply zip_with_replicate_r_eq. exact H. Qed.

Lemma take_items_Permutation {A} (l : list A) (p q : list nat) :
  Permutation p q ->
  forall l1, take_items l p = Ok l1 ->
  exists l2, take_items l q = Ok l2 /\ Permutation l1 l2.
Proof.
  induction 1 as [|i p q Hpq IH|i j p|p q r Hpq IH1 Hqr IH2]; intros l1 H1.
  - exists l1. split; [exact H1|]. simpl in H1. injection H1 as <-. constructor.
  - simpl in *. destruct (l !! i) as [x|]; [|discriminate].
    destruct (take_items l p) as [xs|]; [|discriminate]. injection H1 as <-.
    destruct (IH xs eq_refl) as (l2 & -> & Hp). exists (x :: l2). split; [reflexivity|].
    constructor. exact Hp.
  - simpl in *. destruct (l !! j) as [y|]; [|discriminate].
    destruct (l !! i) as [x|]; [|discriminate].
    destruct (take_items l p) as [xs|]; [|discriminate]. injection H1 as <-.
    exists (x :: y :: xs). split; [reflexivity|]. constructor.
  - destruct (IH1 l1 H1) as (l2 & H2 & Hp2). destruct (IH2 l2 H2) as (l3 & H3 & Hp3).
    exists l3. split; [exact H3|]. etransitivity; eassumption.
Qed.

Lemma take_items_seq {A} (pre l : list A) :
  take_items (pre ++ l) (seq (length pre) (length l)) = Ok l.
Proof.
  revert pre. induction l as [|x l IH]; intros pre; simpl; [reflexivity|].
  rewrite lookup_app_r by lia. rewrite Nat.sub_diag. simpl.
  specialize (IH (pre ++ [x])). rewrite <- app_assoc, length_app in IH. simpl in IH.
  rewrite Nat.add_1_r in IH. rewrite IH. reflexivity.
Qed.

Lemma take_items_perm {A} (l : list A) (p : list nat) :
  Permutation p (seq 0 (length l)) ->
  exists l', take_items l p = Ok l' /\ Permutation l' l.
Proof.
  intros Hp. symmetry in Hp.
  destruct (take_items_Permutation l _ _ Hp l (take_items_seq [] l)) as (l' & H & Hl).
  exists l'. split; [exact H | symmetry; exact Hl].
Qed.

Lemma take_items_zip {A B} (X : list A) (Y : list B) (p : list nat) X' Y' :
  take_items X p = Ok X' -> take_items Y p = Ok Y' ->
  take_items (zip X Y) p = Ok (zip X' Y').
Proof.
  revert X' Y'. induction p as [|i p IH]; intros X' Y'; simpl.
  - intros [= <-] [= <-]. reflexivity.
  - rewrite lookup_zip_with.
    destruct (X !! i) as [x|]; [|discriminate].
    destruct (take_items X p) as [xs|]; [|discriminate]. intros [= <-].
    destruct (Y !! i) as [y|]; [|discriminate].
    destruct (take_items Y p) as [ys|]; [|discriminate]. intros [= <-].
    simpl. rewrite (IH xs ys eq_refl eq_refl). reflexivity.
Qed.

Lemma take_items_length {A} (l : list A) p l' :
  take_items l p = Ok l' -> length l' = length p.
Proof.
  revert l'. induction p as [|i p IH]; intros l'; simpl.
  - intros [= <-]. reflexivity.
  - destruct (l !! i); [|discriminate]. destruct (take_items l p); [|discriminate].
    intros [= <-]. simpl. f_equal. apply IH. reflexivity.
Qed.

Lemma np_concatenate_two {A} (a b : ndarray A) :
  np_concatenate [a; b] =
  if (ndim b =? ndim a)%nat then Ok {| ndim := ndim a; items := items a ++ items b |}
  else Raise ValueError.
Proof.
  unfold np_concatenate. simpl. rewrite andb_true_r, app_nil_r. reflexivity.
Qed.

Lemma np_concatenate_lists_two (x y : list Z) :
  np_concatenate_lists [x; y] = Ok (x ++ y).
Proof. unfold np_concatenate_lists. simpl. rewrite app_nil_r. reflexivity. Qed.

Lemma get_dataset_rejects data_file test_split w :
  in_range test_split = false ->
  Dataset.get_dataset sgn_tree bkg_tree row_of data_file test_split w = (Raise AssertionError, w).
Proof.
  unfold in_range. intros H. unfold Dataset.get_dataset, bind. rewrite H. reflexivity.
Qed.

Lemma split_tree_run test_split label (data : ndarray Entry) p w l g :
  np_shuffle (rng w) (items data) = (l, g) ->
  split_tree test_split (label, data) p w =
    (Ok {| X_train := X_train p ++ [ {| ndim := ndim data;
                                        items := slice_to l (- test_size test_split l) |} ];
           X_test := X_test p ++ [ {| ndim := ndim data;
                                      items := slice_from l (- test_size test_split l) |} ];
           Y_train := Y_train p ++
                      [ repeat label (Z.of_nat (length l) - test_size test_split l) ];
           Y_test := Y_test p ++ [ repeat label (test_size test_split l) ] |},
     {| rng := g; disk := disk w; events := events w |}).
Proof.
  intros H. unfold split_tree, shuffle, bind. rewrite H. reflexivity.
Qed.

Lemma get_dataset_run data_file test_split w trees signal background s g1 b g2 :
  in_range test_split = true ->
  disk w !! data_file = Some trees ->
  trees !! sgn_tree = Some signal ->
  trees !! bkg_tree = Some background ->
  np_shuffle (np_seed 0) (map row_of signal) = (s, g1) ->
  np_shuffle g1 (map row_of background) = (b, g2) ->
  Dataset.get_dataset sgn_tree bkg_tree row_of data_file test_split w =
    finish_dataset
      (parts_of test_split (ndim (np_array (map row_of signal))) s
                           (ndim (np_array (map row_of background))) b)
      {| rng := g2; disk := disk w;
         events := (events w ++ [ReadTree data_file sgn_tree])
                   ++ [ReadTree data_file bkg_tree] |}.
Proof.
  unfold in_range. intros Hr Hf Hs Hb Hsh1 Hsh2. unfold Dataset.get_dataset.
  erewrite bind_ok by (rewrite Hr; reflexivity).
  erewrite bind_ok by (unfold root2array; rewrite Hf, Hs; reflexivity).
  erewrite bind_ok by (unfold root2array; simpl; rewrite Hf, Hb; reflexivity).
  erewrite bind_ok by reflexivity.
  erewrite bind_ok; [reflexivity|].
  change (enumerate [np_array (map row_of signal); np_array (map row_of background)])
    with [(0, np_array (map row_of signal)); (1, np_array (map row_of background))].
  cbn [for_each].
  erewrite bind_ok by (apply split_tree_run; exact Hsh1).
  erewrite bind_ok by (apply split_tree_run; exact Hsh2).
  reflexivity.
Qed.

Lemma shuffle_split_spec (X : ndarray Entry) (Y : list Z) w :
  length Y = length (items X) ->
  exists X' Y' g,
    shuffle_split X Y w =
      (Ok ({| ndim := ndim X; items := X' |}, Y'),
       {| rng := g; disk := disk w; events := events w |}) /\
    Permutation (zip X' Y') (zip (items X) Y) /\
    length X' = length Y' /\
    Permutation X' (items X) /\ Permutation Y' Y.
Proof.
  intros Hlen. unfold shuffle_split, permutation.
  pose proof (np_permutation_perm (rng w) (length (items X))) as Hp.
  destruct (np_permutation (rng w) (length (items X))) as [p g] eqn:E. simpl in Hp.
  destruct (take_items_perm (items X) p Hp) as (X' & HX & HpX).
  assert (HpY : Permutation p (seq 0 (length Y))) by (rewrite Hlen; exact Hp).
  destruct (take_items_perm Y p HpY) as (Y' & HY & HpY').
  exists X', Y', g. split; [|split; [|split; [|split]]].
  - unfold bind, lift, ret. rewrite E, HX, HY. reflexivity.
  - pose proof (take_items_zip _ _ _ _ _ HX HY) as Hz.
    assert (Hpz : Permutation p (seq 0 (length (zip (items X) Y)))).
    { rewrite length_zip_with, <- Hlen, Nat.min_id. exact HpY. }
    destruct (take_items_perm _ p Hpz) as (Z' & HZ & HpZ).
    rewrite Hz in HZ. injection HZ as <-. exact HpZ.
  - apply take_items_length in HX, HY. lia.
  - exact HpX.
  - exact HpY'.
Qed.

Lemma finish_value_error ts dS s dB b w :
  dS <> dB ->
  finish_dataset (parts_of ts dS s dB b) w = (Raise ValueError, w).
Proof.
  intros Hd. unfold finish_dataset, parts_of. cbn [X_train].
  rewrite np_concatenate_two. cbn [ndim].
  destruct (Nat.eqb_spec dB dS); [congruence | reflexivity].
Qed.

Lemma finish_assert_train ts d s b w :
  length (pre_Y_train ts s b) <> length (pre_X_train ts s b) ->
  finish_dataset (parts_of ts d s d b) w = (Raise AssertionError, w).
Proof.
  intros Hl. unfold finish_dataset, parts_of. cbn [X_train X_test Y_train Y_test].
  rewrite !np_concatenate_two, !np_concatenate_lists_two. cbn [ndim items].
  rewrite Nat.eqb_refl.
  do 4 (erewrite bind_ok by reflexivity).
  erewrite bind_raise; [reflexivity|]. cbn [items].
  fold (pre_Y_train ts s b). fold (pre_X_train ts s b).
  destruct (Nat.eqb_spec (length (pre_Y_train ts s b)) (length (pre_X_train ts s b)));
    [contradiction | reflexivity].
Qed.

Lemma finish_assert_test ts d s b w :
  length (pre_Y_train ts s b) = length (pre_X_train ts s b) ->
  length (pre_Y_test ts s b) <> length (pre_X_test ts s b) ->
  finish_dataset (parts_of ts d s d b) w = (Raise AssertionError, w).
Proof.
  intros Hl Hl'. unfold finish_dataset, parts_of. cbn [X_train X_test Y_train Y_test].
  rewrite !np_concatenate_two, !np_concatenate_lists_two. cbn [ndim items].
  rewrite Nat.eqb_refl.
  do 4 (erewrite bind_ok by reflexivity).
  erewrite bind_ok; cycle 1.
  { cbn [items]. fold (pre_Y_train ts s b). fold (pre_X_train ts s b).
    rewrite Hl, Nat.eqb_refl. reflexivity. }
  erewrite bind_raise; [reflexivity|]. cbn [items].
  fold (pre_Y_test ts s b). fold (pre_X_test ts s b).
  destruct (Nat.eqb_spec (length (pre_Y_test ts s b)) (length (pre_X_test ts s b)));
    [contradiction | reflexivity].
Qed.

Lemma finish_ok ts d s b w :
  length (pre_Y_train ts s b) = length (pre_X_train ts s b) ->
  length (pre_Y_test ts s b) = length (pre_X_test ts s b) ->
  exists Xtr Ytr Xte Yte g,
    finish_dataset (parts_of ts d s d b) w =
      (Ok (({| ndim := d; items := Xtr |}, Ytr), ({| ndim := d; items := Xte |}, Yte)),
       {| rng := g; disk := disk w; events := events w |}) /\
    Permutation (zip Xtr Ytr) (zip (pre_X_train ts s b) (pre_Y_train ts s b)) /\
    Permutation (zip Xte Yte) (zip (pre_X_test ts s b) (pre_Y_test ts s b)) /\
    length Xtr = length Ytr /\ length Xte = length Yte /\
    Permutation Xtr (pre_X_train ts s b) /\ Permutation Xte (pre_X_test ts s b).
Proof.
  intros Hl Hl'.
  destruct (shuffle_split_spec {| ndim := d; items := pre_X_train ts s b |}
              (pre_Y_train ts s b) w Hl) as (Xtr & Ytr & g1 & Htr & Hptr & Hltr & HpX & _).
  destruct (shuffle_split_spec {| ndim := d; items := pre_X_test ts s b |}
              (pre_Y_test ts s b) {| rng := g1; disk := disk w; events := events w |} Hl')
    as (Xte & Yte & g2 & Hte & Hpte & Hlte & HpX' & _).
  exists Xtr, Ytr, Xte, Yte, g2. split; [|auto 10].
  unfold finish_dataset, parts_of. cbn [X_train X_test Y_train Y_test].
  rewrite !np_concatenate_two, !np_concatenate_lists_two. cbn [ndim items].
  rewrite Nat.eqb_refl.
  do 4 (erewrite bind_ok by reflexivity).
  erewrite bind_ok; cycle 1.
  { cbn [items]. fold (pre_Y_train ts s b). fold (pre_X_train ts s b).
    rewrite Hl, Nat.eqb_refl. reflexivity. }
  erewrite bind_ok; cycle 1.
  { cbn [items]. fold (pre_Y_test ts s b). fold (pre_X_test ts s b).
    rewrite Hl', Nat.eqb_refl. reflexivity. }
  erewrite bind_ok by exact Htr.
  erewrite bind_ok by exact Hte.
  reflexivity.
Qed.

Lemma relates_root2array data_file tree : relates (same_file data_file) (same_file data_file) (root2array data_file tree).
Proof.
  intros w1 w2 H. unfold root2array. unfold same_file in H. rewrite H.
  destruct (disk w2 !! data_file) as [f|] eqn:E; [destruct (f !! tree)|]; simpl;
    (split; [reflexivity | intros _; unfold same_file; simpl; congruence]).
Qed.

Lemma relates_seed data_file s : relates (same_file data_file) (same_rng data_file) (seed s).
Proof. intros w1 w2 H. split; [reflexivity|]. intros _. split; [reflexivity | exact H]. Qed.

Lemma relates_shuffle data_file data : relates (same_rng data_file) (same_rng data_file) (shuffle data).
Proof.
  intros w1 w2 [Hg Hd]. unfold shuffle. rewrite Hg.
  destruct (np_shuffle (rng w2) (items data)) as [l g]. simpl.
  split; [reflexivity|]. intros _. split; [reflexivity | exact Hd].
Qed.

Lemma relates_permutation data_file n : relates (same_rng data_file) (same_rng data_file) (permutation n).
Proof.
  intros w1 w2 [Hg Hd]. unfold permutation. rewrite Hg.
  destruct (np_permutation (rng w2) n) as [p g]. simpl.
  split; [reflexivity|]. intros _. split; [reflexivity | exact Hd].
Qed.

Lemma relates_split_tree data_file ts ld p : relates (same_rng data_file) (same_rng data_file) (split_tree ts ld p).
Proof.
  destruct ld as [label data]. unfold split_tree.
  eapply relates_bind; [apply relates_shuffle|]. intros a. apply relates_ret.
Qed.

Lemma relates_shuffle_split data_file X Y : relates (same_rng data_file) (same_rng data_file) (shuffle_split X Y).
Proof.
  unfold shuffle_split.
  eapply relates_bind; [apply relates_permutation|]. intros p.
  eapply relates_bind; [apply relates_pure|]. intros X'.
  eapply relates_bind; [apply relates_pure|]. intros Y'.
  apply relates_ret.
Qed.

Lemma relates_get_dataset data_file ts :
  relates (same_file data_file) (same_rng data_file) (Dataset.get_dataset sgn_tree bkg_tree row_of data_file ts).
Proof.
  unfold Dataset.get_dataset.
  eapply relates_bind; [apply relates_assert|]. intros _.
  eapply relates_bind; [apply relates_root2array|]. intros signal.
  eapply relates_bind; [apply relates_root2array|]. intros background.
  eapply relates_bind; [apply relates_seed|]. intros _.
  eapply relates_bind; [apply relates_for_each; intros; apply relates_split_tree|]. intros p.
  do 4 (eapply relates_bind; [apply relates_pure|]; intros ?).
  do 2 (eapply relates_bind; [apply relates_assert|]; intros _).
  do 2 (eapply relates_bind; [apply relates_shuffle_split|]; intros ?).
  apply relates_ret.
Qed.

(** C5.  [get_dataset] is deterministic: two runs on the same file
    contents and the same [test_split] return the same
    [(X_train, Y_train), (X_test, Y_test)] (or fail alike), whatever
    state the generator was in before either call, because the call
    reseeds it with 0 before the shuffles and permutations. *)
Theorem get_dataset_deterministic (data_file : string) (test_split : Q) (w1 w2 : World) :
  disk w1 !! data_file = disk w2 !! data_file ->
  fst (Dataset.get_dataset sgn_tree bkg_tree row_of data_file test_split w1) =
  fst (Dataset.get_dataset sgn_tree bkg_tree row_of data_file test_split w2).
Proof.
  intros H. apply (relates_get_dataset data_file test_split w1 w2 H).
Qed.

Lemma test_size_range ts (l : list Entry) :
  in_range ts = true -> 0 <= test_size ts l <= Z.of_nat (length l).
Proof.
  unfold in_range. intros H. apply andb_prop in H. destruct H as [H0 H1].
  apply Qle_bool_iff in H0, H1. apply test_size_bounds; assumption.
Qed.

Lemma pre_lengths ts (s b : list Entry) :
  in_range ts = true ->
  let tS := test_size ts s in
  let tB := test_size ts b in
  length (pre_X_train ts s b) =
    ((if (tS =? 0)%Z then 0 else length s - Z.to_nat tS) +
     (if (tB =? 0)%Z then 0 else length b - Z.to_nat tB))%nat /\
  length (pre_Y_train ts s b) =
    ((length s - Z.to_nat tS) + (length b - Z.to_nat tB))%nat /\
  length (pre_X_test ts s b) =
    ((if (tS =? 0)%Z then length s else Z.to_nat tS) +
     (if (tB =? 0)%Z then length b else Z.to_nat tB))%nat /\
  length (pre_Y_test ts s b) = (Z.to_nat tS + Z.to_nat tB)%nat.
Proof.
  intros Hr tS tB.
  pose proof (test_size_range ts s Hr) as HS. pose proof (test_size_range ts b Hr) as HB.
  destruct (slice_lengths s _ HS) as [HS1 HS2]. destruct (slice_lengths b _ HB) as [HB1 HB2].
  unfold pre_X_train, pre_Y_train, pre_X_test, pre_Y_test.
  rewrite !length_app, !length_repeat, HS1, HS2, HB1, HB2. fold tS tB.
  repeat split; lia.
Qed.

Lemma well_split_lengths ts (s b : list Entry) :
  in_range ts = true ->
  (well_split ts s /\ well_split ts b) <->
  (length (pre_Y_train ts s b) = length (pre_X_train ts s b) /\
   length (pre_Y_test ts s b) = length (pre_X_test ts s b)).
Proof.
  intros Hr. destruct (pre_lengths ts s b Hr) as (H1 & H2 & H3 & H4).
  pose proof (test_size_range ts s Hr) as HS. pose proof (test_size_range ts b Hr) as HB.
  rewrite H1, H2, H3, H4. unfold well_split. clear H1 H2 H3 H4.
  destruct (Z.eqb_spec (test_size ts s) 0) as [ES|ES];
    destruct (Z.eqb_spec (test_size ts b) 0) as [EB|EB]; rewrite ?ES, ?EB; simpl Z.to_nat;
    split.
  all: try (intros [HS' HB']; try rewrite (HS' eq_refl); try rewrite (HB' eq_refl);
            simpl length; split; lia).
  all: intros [H1 H2]; split; intros E; try contradiction;
       apply length_zero_iff_nil; lia.
Qed.

Lemma well_split_slices ts (l : list Entry) (label : Z) :
  in_range ts = true -> well_split ts l ->
  let t := test_size ts l in
  slice_to l (- t) ++ slice_from l (- t) = l /\
  zip (slice_to l (- t)) (repeat label (Z.of_nat (length l) - t))
    = (fun x => (x, label)) <$> slice_to l (- t) /\
  zip (slice_from l (- t)) (repeat label t) = (fun x => (x, label)) <$> slice_from l (- t) /\
  length (slice_from l (- t)) = Z.to_nat t /\
  length (slice_to l (- t)) = (length l - Z.to_nat t)%nat.
Proof.
  intros Hr Hw t. pose proof (test_size_range ts l Hr) as Ht. fold t in Ht.
  destruct (Z.eq_dec t 0) as [E|E].
  - rewrite (Hw E), E. simpl. repeat split; reflexivity.
  - destruct (slice_split l t) as (H1 & H2 & H3); [lia|].
    split; [exact H1|]. split; [apply zip_labels; lia|]. split; [apply zip_labels; lia|].
    split; assumption.
Qed.

Lemma ndim_np_array_eq (a b : list Entry) :
  ndim (np_array a) = ndim (np_array b) <-> (a = [] <-> b = []).
Proof.
  destruct a, b; simpl; split; try discriminate; try tauto; try (intros _; split; discriminate).
  - intros [H _]. discriminate (H eq_refl).
  - intros [_ H]. discriminate (H eq_refl).
Qed.

(** What a returning call went through. *)
Lemma get_dataset_ok_inv data_file ts w r w' :
  Dataset.get_dataset sgn_tree bkg_tree row_of data_file ts w = (Ok r, w') ->
  in_range ts = true /\
  exists trees signal background,
    disk w !! data_file = Some trees /\
    trees !! sgn_tree = Some signal /\
    trees !! bkg_tree = Some background.
Proof.
  unfold Dataset.get_dataset, in_range.
  destruct (Qle_bool 0 ts && Qle_bool ts (3 # 10)) eqn:Hr;
    [|unfold bind; simpl; discriminate].
  erewrite bind_ok by reflexivity.
  unfold bind at 1. unfold root2array at 1.
  destruct (disk w !! data_file) as [trees|] eqn:Hf; [|discriminate].
  destruct (trees !! sgn_tree) as [signal|] eqn:Hs; [|discriminate].
  unfold bind at 1. unfold root2array at 1. simpl disk. rewrite Hf.
  destruct (trees !! bkg_tree) as [background|] eqn:Hb; [|discriminate].
  intros _. split; [reflexivity|]. exists trees, signal, background. auto.
Qed.

Lemma map_nil_iff {A B} (f : A -> B) (l : list A) : map f l = [] <-> l = [].
Proof. destruct l; simpl; split; congruence. Qed.

Lemma test_size_perm ts (l l' : list Entry) :
  Permutation l l' -> test_size ts l = test_size ts l'.
Proof. intros H. unfold test_size. rewrite (Permutation_length H). reflexivity. Qed.

Lemma well_split_perm ts (l l' : list Entry) :
  Permutation l l' -> well_split ts l <-> well_split ts l'.
Proof.
  intros H. unfold well_split. rewrite (test_size_perm ts l l' H).
  split; intros Hw E; specialize (Hw E); subst.
  - apply Permutation_nil in H. exact H.
  - symmetry in H. apply Permutation_nil in H. exact H.
Qed.

Lemma test_size_zero_split (l : list Entry) : test_size 0 l = 0.
Proof. unfold test_size, int. simpl. rewrite Z.mul_0_r. reflexivity. Qed.

Lemma get_dataset_outcome data_file ts w trees signal background :
  in_range ts = true ->
  disk w !! data_file = Some trees ->
  trees !! sgn_tree = Some signal ->
  trees !! bkg_tree = Some background ->
  outcome row_of ts signal background (fst (Dataset.get_dataset sgn_tree bkg_tree row_of data_file ts w)) /\
  disk (snd (Dataset.get_dataset sgn_tree bkg_tree row_of data_file ts w)) = disk w /\
  events (snd (Dataset.get_dataset sgn_tree bkg_tree row_of data_file ts w)) =
    (events w ++ [ReadTree data_file sgn_tree]) ++ [ReadTree data_file bkg_tree].
Proof.
  intros Hr Hf Hs Hb.
  pose proof (np_shuffle_perm (np_seed 0) (map row_of signal)) as HpS.
  destruct (np_shuffle (np_seed 0) (map row_of signal)) as [s g1] eqn:E1.
  pose proof (np_shuffle_perm g1 (map row_of background)) as HpB.
  destruct (np_shuffle g1 (map row_of background)) as [b g2] eqn:E2.
  simpl in HpS, HpB.
  erewrite get_dataset_run by eassumption.
  set (w2 := {| rng := g2; disk := disk w; events := _ |}).
  destruct (Nat.eq_dec (ndim (np_array (map row_of signal)))
                       (ndim (np_array (map row_of background)))) as [Hd|Hd].
  - assert (Hempty : signal = [] <-> background = []).
    { apply ndim_np_array_eq in Hd. rewrite !map_nil_iff in Hd. exact Hd. }
    rewrite <- Hd.
    destruct (Nat.eq_dec (length (pre_Y_train ts s b)) (length (pre_X_train ts s b)))
      as [Hl|Hl];
      [destruct (Nat.eq_dec (length (pre_Y_test ts s b)) (length (pre_X_test ts s b)))
        as [Hl'|Hl']|].
    + destruct (finish_ok ts (ndim (np_array (map row_of signal))) s b w2 Hl Hl')
        as (Xtr & Ytr & Xte & Yte & g & Hfin & H1 & H2 & H3 & H4 & H5 & H6).
      rewrite Hfin. simpl. split; [|auto].
      destruct (proj2 (well_split_lengths ts s b Hr) (conj Hl Hl')) as [WS WB].
      eapply out_ok; eauto.
    + rewrite finish_assert_test by assumption. simpl. split; [|auto].
      apply out_assertion; [exact Hempty|].
      rewrite <- (well_split_perm ts _ _ HpS), <- (well_split_perm ts _ _ HpB).
      rewrite (well_split_lengths ts s b Hr). tauto.
    + rewrite finish_assert_train by assumption. simpl. split; [|auto].
      apply out_assertion; [exact Hempty|].
      rewrite <- (well_split_perm ts _ _ HpS), <- (well_split_perm ts _ _ HpB).
      rewrite (well_split_lengths ts s b Hr). tauto.
  - rewrite finish_value_error by exact Hd. simpl. split; [|auto].
    apply out_value_error. intros Hempty. apply Hd, ndim_np_array_eq.
    rewrite !map_nil_iff. exact Hempty.
Qed.

(** C10.  Label pairing: whenever [get_dataset] returns, both splits
    have as many labels as examples; the final shuffles index X and Y
    by the same permutation, so the pairs of each split are, as a
    multiset, the pairs before the shuffle; there every example of the
    first (signal) tree carries label 0 and every example of the second
    (background) tree label 1; and the two splits together hold every
    entry of both trees exactly once, with the label of its tree. *)
Theorem get_dataset_label_pairing data_file ts w Xtr Ytr Xte Yte :
  fst (Dataset.get_dataset sgn_tree bkg_tree row_of data_file ts w)
    = Ok ((Xtr, Ytr), (Xte, Yte)) ->
  exists trees signal background s b,
    disk w !! data_file = Some trees /\
    trees !! sgn_tree = Some signal /\
    trees !! bkg_tree = Some background /\
    Permutation s (map row_of signal) /\ Permutation b (map row_of background) /\
    length (items Xtr) = length Ytr /\ length (items Xte) = length Yte /\
    Permutation (zip (items Xtr) Ytr) (zip (pre_X_train ts s b) (pre_Y_train ts s b)) /\
    Permutation (zip (items Xte) Yte) (zip (pre_X_test ts s b) (pre_Y_test ts s b)) /\
    zip (pre_X_train ts s b) (pre_Y_train ts s b) =
      (with_label 0 <$> slice_to s (- test_size ts s)) ++
      (with_label 1 <$> slice_to b (- test_size ts b)) /\
    zip (pre_X_test ts s b) (pre_Y_test ts s b) =
      (with_label 0 <$> slice_from s (- test_size ts s)) ++
      (with_label 1 <$> slice_from b (- test_size ts b)) /\
    Permutation (zip (items Xtr) Ytr ++ zip (items Xte) Yte)
                ((with_label 0 <$> map row_of signal) ++
                 (with_label 1 <$> map row_of background)).
Proof.
  intros Hfst.
  destruct (Dataset.get_dataset sgn_tree bkg_tree row_of data_file ts w) as [r w'] eqn:Hrun.
  simpl in Hfst. subst r.
  destruct (get_dataset_ok_inv _ _ _ _ _ Hrun)
    as (Hr & trees & signal & background & Hf & Hs & Hb).
  destruct (get_dataset_outcome _ _ _ _ _ _ Hr Hf Hs Hb)
    as (Hout & _).
  rewrite Hrun in Hout. simpl in Hout.
  inversion Hout as [| |s b d Xtr0 Ytr0 Xte0 Yte0 HpS HpB WS WB H1 H2 H3 H4 H5 H6 E].
  subst. simpl.
  destruct (well_split_slices ts s 0 Hr WS) as (SA & SB & SC & SD & SE).
  destruct (well_split_slices ts b 1 Hr WB) as (BA & BB & BC & BD & BE).
  pose proof (test_size_range ts s Hr) as RS.
  pose proof (test_size_range ts b Hr) as RB.
  cbv zeta in *.
  assert (Etr : zip (pre_X_train ts s b) (pre_Y_train ts s b) =
                (with_label 0 <$> slice_to s (- test_size ts s)) ++
                (with_label 1 <$> slice_to b (- test_size ts b))).
  { unfold pre_X_train, pre_Y_train.
    rewrite zip_with_app by (rewrite length_repeat; lia).
    fold (zip (slice_to s (- test_size ts s))
              (repeat 0 (Z.of_nat (length s) - test_size ts s))).
    fold (zip (slice_to b (- test_size ts b))
              (repeat 1 (Z.of_nat (length b) - test_size ts b))).
    rewrite SB, BB. reflexivity. }
  assert (Ete : zip (pre_X_test ts s b) (pre_Y_test ts s b) =
                (with_label 0 <$> slice_from s (- test_size ts s)) ++
                (with_label 1 <$> slice_from b (- test_size ts b))).
  { unfold pre_X_test, pre_Y_test.
    rewrite zip_with_app by (rewrite length_repeat; lia).
    fold (zip (slice_from s (- test_size ts s)) (repeat 0 (test_size ts s))).
    fold (zip (slice_from b (- test_size ts b)) (repeat 1 (test_size ts b))).
    rewrite SC, BC. reflexivity. }
  exists trees, signal, background, s, b.
  repeat (split; [assumption|]).
  rewrite H1, H2, Etr, Ete.
  transitivity ((with_label 0 <$> s) ++ (with_label 1 <$> b)).
  2: { apply Permutation_app; apply fmap_Permutation; assumption. }
  assert (ES : with_label 0 <$> s =
               (with_label 0 <$> slice_to s (- test_size ts s)) ++
               (with_label 0 <$> slice_from s (- test_size ts s)))
    by (rewrite <- fmap_app, SA; reflexivity).
  assert (EB : with_label 1 <$> b =
               (with_label 1 <$> slice_to b (- test_size ts b)) ++
               (with_label 1 <$> slice_from b (- test_size ts b)))
    by (rewrite <- fmap_app, BA; reflexivity).
  rewrite ES, EB.
  rewrite <- !app_assoc. apply Permutation_app_head.
  rewrite !app_assoc. apply Permutation_app_tail. apply Permutation_app_comm.
Qed.

(** C8, at the input where the code departs from it.  [test_split = 0]
    passes the range check, both trees are read, and the call still
    ends in [AssertionError] (from the length check after the loop)
    when the trees are not empty. *)
Theorem get_dataset_asserts_on_zero_split data_file w trees signal background :
  disk w !! data_file = Some trees ->
  trees !! sgn_tree = Some signal ->
  trees !! bkg_tree = Some background ->
  signal <> [] -> background <> [] ->
  in_range 0 = true /\
  fst (Dataset.get_dataset sgn_tree bkg_tree row_of data_file 0 w) = Raise AssertionError /\
  events (snd (Dataset.get_dataset sgn_tree bkg_tree row_of data_file 0 w)) =
    (events w ++ [ReadTree data_file sgn_tree]) ++ [ReadTree data_file bkg_tree].
Proof.
  intros Hf Hs Hb HS HB.
  assert (Hr : in_range 0 = true) by reflexivity.
  destruct (get_dataset_outcome _ _ _ _ _ _ Hr Hf Hs Hb)
    as (Hout & _ & Hev).
  split; [exact Hr|]. split; [|exact Hev].
  inversion Hout as [Hne E | He Hw E | s b d Xtr Ytr Xte Yte HpS HpB WS WB H1 H2 H3 H4 H5 H6 E].
  - exfalso. apply Hne. tauto.
  - reflexivity.
  - exfalso. specialize (WS (test_size_zero_split s)). subst s.
    apply Permutation_nil in HpS. apply map_nil_iff in HpS. contradiction.
Qed.



End DatasetProofs.

(** ** Runs on the small frameworks *)




Lemma predict_argmax_witness :
  exists labels,
    @Trainer.predict Toy.torch Toy.trainer Toy.inputs Toy.host
      = (Ok (labels, Trainer.eval_mode Toy.trainer), Toy.host) /\
    length labels = length Toy.inputs /\
    Forall2 (fun row l => exists i, l = Z.of_nat i /\ is_argmax row i)
            Toy.inputs labels.
Proof.
  apply (@predict_argmax Toy.torch Toy.trainer
           Toy.inputs Toy.host
           Toy.inputs);
    [reflexivity | repeat constructor; discriminate].
Defined.

Lemma score_accuracy_witness :
  exists pred q,
    @Trainer.predict Toy.torch Toy.trainer Toy.inputs Toy.host
      = (Ok (pred, Trainer.eval_mode Toy.trainer), Toy.host) /\
    @Trainer.score Toy.torch Toy.trainer Toy.inputs Toy.labels
      Toy.host = (Ok (Trainer.Num q, Trainer.eval_mode Toy.trainer), Toy.host) /\
    q = (inject_Z (Z.of_nat (matches pred Toy.labels))
         / inject_Z (Z.of_nat (length Toy.labels)))%Q /\
    (0 <= q <= 1)%Q /\
    ((q == 1)%Q <-> pred = Toy.labels).
Proof.
  apply (@score_accuracy Toy.torch Toy.trainer
           Toy.inputs Toy.labels Toy.host
           Toy.inputs);
    [discriminate | reflexivity | reflexivity | repeat constructor; discriminate].
Defined.


Lemma get_dataset_deterministic_witness :
  fst (@Dataset.get_dataset Toy.numpy "sgn" "bkg" id "data.root" (1 # 5)%Q (Toy.world 3)) =
  fst (@Dataset.get_dataset Toy.numpy "sgn" "bkg" id "data.root" (1 # 5)%Q (Toy.world 7)).
Proof.
  apply (@get_dataset_deterministic Toy.numpy "sgn" "bkg" id "data.root" (1 # 5)%Q
           (Toy.world 3) (Toy.world 7)).
  reflexivity.
Defined.

(** C6 at an input where the code departs from it: [test_split = 0.1],
    a signal tree of five entries (test size [int(0.5) = 0]) and a
    background tree of ten (test size 1).  The call returns no split. *)
Lemma get_dataset_small_tree_fails :
  in_range (1 # 10)%Q = true /\
  @test_size Toy.numpy (1 # 10)%Q Toy.sgn = 0 /\
  @test_size Toy.numpy (1 # 10)%Q Toy.bkg = 1 /\
  fst (@Dataset.get_dataset Toy.numpy "sgn" "bkg" id "data.root" (1 # 10)%Q (Toy.world 0))
    = Raise AssertionError.
Proof. repeat split; vm_compute; reflexivity. Qed.

Lemma get_dataset_asserts_on_zero_split_witness :
  in_range 0 = true /\
  fst (@Dataset.get_dataset Toy.numpy "sgn" "bkg" id "data.root" 0%Q (Toy.world 0))
    = Raise AssertionError /\
  Dataset.events
    (snd (@Dataset.get_dataset Toy.numpy "sgn" "bkg" id "data.root" 0%Q (Toy.world 0)))
  = (Dataset.events (Toy.world 0) ++ [Dataset.ReadTree "data.root" "sgn"])
    ++ [Dataset.ReadTree "data.root" "bkg"].
Proof.
  apply (@get_dataset_asserts_on_zero_split Toy.numpy "sgn" "bkg" id "data.root"
           (Toy.world 0)
           Toy.trees Toy.sgn Toy.bkg);
    [reflexivity | reflexivity | reflexivity | discriminate | discriminate].
Defined.



Lemma get_dataset_label_pairing_witness :
  exists trees signal background s b,
    Toy.disk !! "data.root" = Some trees /\
    trees !! "sgn" = Some signal /\
    trees !! "bkg" = Some background /\
    Permutation s (map id signal) /\ Permutation b (map id background) /\
    length [3; 4; 20; 30; 40; 50; 60; 70; 80; 90; 1; 2]
      = length [0; 0; 1; 1; 1; 1; 1; 1; 1; 1; 0; 0] /\
    length [5; 100; 10] = length [0; 1; 1] /\
    Permutation (zip [3; 4; 20; 30; 40; 50; 60; 70; 80; 90; 1; 2]
                     [0; 0; 1; 1; 1; 1; 1; 1; 1; 1; 0; 0])
                (zip (@pre_X_train Toy.numpy (1 # 5)%Q s b)
                     (@pre_Y_train Toy.numpy (1 # 5)%Q s b)) /\
    Permutation (zip [5; 100; 10] [0; 1; 1])
                (zip (@pre_X_test Toy.numpy (1 # 5)%Q s b)
                     (@pre_Y_test Toy.numpy (1 # 5)%Q s b)) /\
    zip (@pre_X_train Toy.numpy (1 # 5)%Q s b) (@pre_Y_train Toy.numpy (1 # 5)%Q s b) =
      (@with_label Toy.numpy 0 <$> slice_to s (- @test_size Toy.numpy (1 # 5)%Q s)) ++
      (@with_label Toy.numpy 1 <$> slice_to b (- @test_size Toy.numpy (1 # 5)%Q b)) /\
    zip (@pre_X_test Toy.numpy (1 # 5)%Q s b) (@pre_Y_test Toy.numpy (1 # 5)%Q s b) =
      (@with_label Toy.numpy 0 <$> slice_from s (- @test_size Toy.numpy (1 # 5)%Q s)) ++
      (@with_label Toy.numpy 1 <$> slice_from b (- @test_size Toy.numpy (1 # 5)%Q b)) /\
    Permutation (zip [3; 4; 20; 30; 40; 50; 60; 70; 80; 90; 1; 2]
                     [0; 0; 1; 1; 1; 1; 1; 1; 1; 1; 0; 0]
                 ++ zip [5; 100; 10] [0; 1; 1])
                ((@with_label Toy.numpy 0 <$> map id signal) ++
                 (@with_label Toy.numpy 1 <$> map id background)).
Proof.
  apply (@get_dataset_label_pairing Toy.numpy "sgn" "bkg" id "data.root" (1 # 5)%Q
           (Toy.world 7)
           {| Dataset.ndim := 2;
              Dataset.items := [3; 4; 20; 30; 40; 50; 60; 70; 80; 90; 1; 2] |}
           [0; 0; 1; 1; 1; 1; 1; 1; 1; 1; 0; 0]
           {| Dataset.ndim := 2; Dataset.items := [5; 100; 10] |}
           [0; 1; 1]).
  vm_compute. reflexivity.
Defined.

(** * Further properties *)

(** ** The schedule in closed form *)





(** ** Formatting respects equality of rationals *)



Section TrainerRuns.
Context `{T : Torch}.
Import Trainer.

Lemma train_inv (self : Trainer) X Y epochs lr bs decay logging log_file w hist self' w' :
  train self X Y epochs lr bs decay logging log_file w = (Ok (hist, self'), w') ->
  exists s1 w1,
    for_each (range 1 (epochs + 1))
      (train_epoch {| dataset := zip X Y; batch_size := bs |} decay logging log_file)
      {| ts_lr := lr;
         ts_net := {| arch := arch (net self); state_dict := state_dict (net self);
                      training := true |};
         ts_history := [] |} w = (Ok s1, w1) /\
    hist = ts_history s1 /\
    self' = {| net := ts_net s1; cuda_flag := cuda_flag self |} /\
    w' = {| gen := gen w1; stdout := stdout w1 ++ [TextLine "Finished Training"];
            files := files w1 |}.
Proof.
  unfold train, TensorDataset, DataLoader_new.
  unfold bind at 1. unfold bind at 1.
  destruct (length X =? length Y)%nat; [|discriminate]. simpl.
  unfold bind at 1.
  destruct (bs <=? 0); [discriminate|]. simpl.
  unfold bind at 1.
  destruct (for_each _ _ _ w) as [[s1|e] w1]; [|discriminate].
  unfold bind, print, modify, ret. simpl. intros [= <- <- <-].
  exists s1, w1. auto.
Qed.

Lemma train_epoch_frame dl decay logging log_file epoch s w s' w' :
  train_epoch dl decay logging log_file epoch s w = (Ok s', w') ->
  exists run,
    ts_history s' = ts_history s ++ [run] /\
    arch (ts_net s') = arch (ts_net s) /\
    training (ts_net s') = training (ts_net s) /\
    files w' = match log_file with
               | Some path =>
                   <[path := default [] (files w !! path) ++ [Text (LogLine (run_log run))]]>
                     (files w)
               | None => files w
               end.
Proof.
  unfold train_epoch. unfold bind at 1. unfold lift at 1.
  destruct (mod_ epoch decay) as [r|e]; [|discriminate].
  unfold bind at 1. unfold DataLoader_iter.
  destruct (randperm (gen w) (length (dataset dl))) as [perm g].
  destruct (batch_loop _ _ _) as [[[sd opt] tot] losses].
  unfold bind at 1. unfold lift at 1.
  destruct (float_div tot (DataLoader_len dl)) as [tot'|e]; [|discriminate].
  destruct logging, log_file as [path|]; unfold bind, print, append_line, modify, ret; simpl;
    intros [= <- <-]; eexists; simpl; repeat split; reflexivity.
Qed.

Lemma train_loop_frame dl decay logging log_file es : forall s w s' w',
  for_each es (train_epoch dl decay logging log_file) s w = (Ok s', w') ->
  exists runs,
    ts_history s' = ts_history s ++ runs /\ length runs = length es /\
    arch (ts_net s') = arch (ts_net s) /\
    training (ts_net s') = training (ts_net s) /\
    match log_file with
    | None => files w' = files w
    | Some path =>
        (forall q, q <> path -> files w' !! q = files w !! q) /\
        files w' !! path =
          match runs with
          | [] => files w !! path
          | _ => Some (default [] (files w !! path) ++ log_chunks runs)
          end
    end.
Proof.
  induction es as [|e es IH]; intros s w s' w' H.
  - simpl in H. injection H as <- <-. exists []. rewrite app_nil_r.
    repeat split; try reflexivity. destruct log_file; auto.
  - simpl in H. unfold bind at 1 in H.
    destruct (train_epoch dl decay logging log_file e s w) as [[s1|err] w1] eqn:E1;
      [|discriminate].
    destruct (train_epoch_frame _ _ _ _ _ _ _ _ _ E1) as (run & Hh1 & Ha1 & Ht1 & Hf1).
    destruct (IH _ _ _ _ H) as (runs & Hh & Hl & Ha & Ht & Hf).
    exists (run :: runs). split; [|split; [|split; [|split]]].
    + rewrite Hh, Hh1, <- app_assoc. reflexivity.
    + simpl. lia.
    + congruence.
    + congruence.
    + destruct log_file as [path|]; [|congruence].
      destruct Hf as [Hq Hp]. split.
      * intros q Hne. rewrite Hq, Hf1 by exact Hne. apply lookup_insert_ne. congruence.
      * rewrite Hp. destruct runs as [|r runs']; rewrite Hf1, lookup_insert_eq.
        -- reflexivity.
        -- simpl. rewrite <- app_assoc. reflexivity.
Qed.



(** X3.  [decay = 0] makes [epoch % decay] raise [ZeroDivisionError]
    in the first epoch, before anything is printed, logged or drawn
    from the generator. *)
Theorem train_zero_decay_raises (self : Trainer) X Y epochs lr bs logging log_file w :
  length X = length Y -> X <> [] -> 0 < bs -> 1 <= epochs ->
  train self X Y epochs lr bs 0 logging log_file w = (Raise ZeroDivisionError, w).
Proof.
  intros Hlen _ Hbs He. unfold train.
  erewrite bind_ok; cycle 1.
  { unfold TensorDataset. erewrite bind_ok; [reflexivity|].
    rewrite Hlen, Nat.eqb_refl. reflexivity. }
  erewrite bind_ok; cycle 1.
  { unfold DataLoader_new. destruct (Z.leb_spec bs 0) as [?|_]; [lia|]. reflexivity. }
  erewrite bind_raise; [reflexivity|].
  unfold range. rewrite seqZ_cons by lia. cbn [for_each].
  erewrite bind_raise; [reflexivity|].
  unfold train_epoch. erewrite bind_raise; reflexivity.
Qed.

(** X4.  With [epochs <= 0] the loop body never runs: [train] only
    switches the network to training mode and prints
    [Finished Training]; the state dict, the files and the generator
    are as before. *)
Theorem train_without_epochs (self : Trainer) X Y epochs lr bs decay logging log_file w :
  length X = length Y -> X <> [] -> 0 < bs -> epochs <= 0 ->
  train self X Y epochs lr bs decay logging log_file w =
    (Ok ([], {| net := {| arch := arch (net self); state_dict := state_dict (net self);
                          training := true |};
                cuda_flag := cuda_flag self |}),
     {| gen := gen w; stdout := stdout w ++ [TextLine "Finished Training"];
        files := files w |}).
Proof.
  intros Hlen _ Hbs He. unfold train.
  erewrite bind_ok; cycle 1.
  { unfold TensorDataset. erewrite bind_ok; [reflexivity|].
    rewrite Hlen, Nat.eqb_refl. reflexivity. }
  erewrite bind_ok; cycle 1.
  { unfold DataLoader_new. destruct (Z.leb_spec bs 0) as [?|_]; [lia|]. reflexivity. }
  erewrite bind_ok; cycle 1.
  { unfold range. replace (seqZ 1 (epochs + 1 - 1)) with (@nil Z); [reflexivity|].
    unfold seqZ. replace (Z.to_nat (epochs + 1 - 1)) with 0%nat by lia. reflexivity. }
  reflexivity.
Qed.

(** X5.  Bad arguments are refused before the first epoch and leave
    the world as it was: inputs and labels of different lengths fail
    the assertion of [TensorDataset], and a batch size that is not
    positive is a [ValueError] of [DataLoader]. *)
Theorem train_rejects_bad_arguments (self : Trainer) X Y epochs lr bs decay logging log_file w :
  length X <> length Y \/ bs <= 0 ->
  exists e,
    train self X Y epochs lr bs decay logging log_file w = (Raise e, w) /\
    (length X <> length Y -> e = AssertionError) /\
    (length X = length Y -> e = ValueError).
Proof.
  intros H. destruct (Nat.eq_dec (length X) (length Y)) as [E|E].
  - destruct H as [H|H]; [contradiction|].
    exists ValueError. split; [|split; [contradiction | reflexivity]].
    unfold train. erewrite bind_ok; cycle 1.
    { unfold TensorDataset. erewrite bind_ok; [reflexivity|].
      rewrite E, Nat.eqb_refl. reflexivity. }
    erewrite bind_raise; [reflexivity|].
    unfold DataLoader_new. destruct (Z.leb_spec bs 0) as [_|?]; [reflexivity | lia].
  - exists AssertionError. split; [|split; [reflexivity | contradiction]].
    unfold train. erewrite bind_raise; [reflexivity|].
    unfold TensorDataset. erewrite bind_raise; [reflexivity|].
    destruct (Nat.eqb_spec (length X) (length Y)) as [?|_]; [contradiction|]. reflexivity.
Qed.


(** X7.  What [train] leaves alone: a run that returns keeps the
    architecture and the [cuda_flag], leaves the network in training
    mode, and without a [log_file] changes no file. *)
Theorem train_frame (self : Trainer) X Y epochs lr bs decay logging log_file w hist self' w' :
  train self X Y epochs lr bs decay logging log_file w = (Ok (hist, self'), w') ->
  arch (net self') = arch (net self) /\
  training (net self') = true /\
  cuda_flag self' = cuda_flag self /\
  (log_file = None -> files w' = files w).
Proof.
  intros Htrain.
  destruct (train_inv _ _ _ _ _ _ _ _ _ _ _ _ _ Htrain) as (s1 & w1 & Hloop & _ & Hs & Hw).
  destruct (train_loop_frame _ _ _ _ _ _ _ _ _ Hloop) as (runs & _ & _ & Ha & Ht & Hf).
  subst self' w'. simpl in *. repeat split; try assumption.
  intros ->. exact Hf.
Qed.
End TrainerRuns.

(** ** predict, score and the checkpoints *)

Section PredictFailures.
Context `{T : Torch}.
Import Trainer.

Lemma np_argmax_axis1_empty_row (out : list (list Q)) :
  Exists (fun row => row = []) out -> np_argmax_axis1 out = Raise ValueError.
Proof.
  unfold np_argmax_axis1. induction 1 as [row out Hrow | row out _ IH].
  - subst row. reflexivity.
  - cbn [map_result]. destruct (argmax_row row) as [i|e] eqn:E.
    + rewrite IH. reflexivity.
    + destruct row; [injection E as <-; reflexivity | discriminate E].
Qed.

(** X8.  [predict] fails as the network fails, and with [ValueError]
    when a row of the network output is empty ([np.argmax] of an empty
    row); [score] fails the same way, whatever the labels, and neither
    changes the world. *)
Theorem predict_failures (self : Trainer) (X : list Input) (Y : list Z) w e :
  net_call (arch (net self)) (state_dict (net self)) false X = Raise e \/
  (e = ValueError /\
   exists out, net_call (arch (net self)) (state_dict (net self)) false X = Ok out /\
               Exists (fun row => row = []) out) ->
  predict self X w = (Raise e, w) /\ score self X Y w = (Raise e, w).
Proof.
  intros H.
  assert (Hp : predict self X w = (Raise e, w)).
  { unfold predict, bind, lift, ret. simpl.
    destruct H as [Hnet|(-> & out & Hnet & Hrow)]; rewrite Hnet; [reflexivity|].
    rewrite (np_argmax_axis1_empty_row out Hrow). reflexivity. }
  split; [exact Hp|]. unfold score. erewrite bind_raise; [reflexivity | exact Hp].
Qed.
End PredictFailures.

Section Checkpoints.
Context `{T : Torch}.
Import Trainer.

Lemma load_model_run (self : Trainer) path model w sd :
  files w !! path = Some [Pickled (torch_dumps sd)] ->
  load_model self path model w =
    if decide (dom sd = dom (state_dict (target self model)))
    then (Ok (match model with
              | None => {| net := loaded_into (target self model) sd;
                           cuda_flag := cuda_flag self |}
              | Some _ => self
              end, loaded_into (target self model) sd), w)
    else (Raise RuntimeError, w).
Proof.
  intros Hf. unfold load_model.
  assert (Hload : forall ml, torch_load path ml w = (Ok sd, w)).
  { intros ml. unfold torch_load, bind, get. rewrite Hf, torch_loads_dumps. reflexivity. }
  erewrite bind_ok by (destruct (cuda_flag self); apply Hload).
  unfold load_state_dict. fold (target self model).
  destruct (decide (dom sd = dom (state_dict (target self model)))) as [E|E].
  - erewrite bind_ok by reflexivity. destruct model; reflexivity.
  - erewrite bind_raise; reflexivity.
Qed.

Lemma save_model_run (self : Trainer) path model w :
  save_model self path model w =
    (Ok tt, {| gen := gen w; stdout := stdout w;
               files := <[path := [Pickled (torch_dumps (state_dict (target self model)))]]>
                          (files w) |}).
Proof. reflexivity. Qed.

(** X9.  [load_model] of a path that holds no file is an [OSError]
    and changes nothing. *)
Theorem load_model_of_missing_file (self : Trainer) path model w :
  files w !! path = None ->
  load_model self path model w = (Raise OSError, w).
Proof.
  intros Hf. unfold load_model.
  erewrite bind_raise; [reflexivity|].
  destruct (cuda_flag self); unfold torch_load, bind, get; rewrite Hf; reflexivity.
Qed.

(** X10.  A checkpoint written from a network with other state-dict
    keys is refused: [load_state_dict] is strict, so [load_model]
    raises [RuntimeError]. *)
Theorem load_model_rejects_other_keys (saver loader : Trainer) path m1 m2 w :
  dom (state_dict (target saver m1)) <> dom (state_dict (target loader m2)) ->
  exists w1,
    save_model saver path m1 w = (Ok tt, w1) /\
    load_model loader path m2 w1 = (Raise RuntimeError, w1).
Proof.
  intros Hne. eexists. split; [apply save_model_run|].
  erewrite load_model_run by (simpl; apply lookup_insert_eq).
  destruct (decide _) as [E|_]; [contradiction | reflexivity].
Qed.


End Checkpoints.

(** ** get_dataset *)

Section DatasetSplits.
Context `{N : Numpy}.
Variable sgn_tree bkg_tree : string.
Variable row_of : Rec -> Entry.
Import Dataset.

Lemma in_range_iff (ts : Q) : in_range ts = true <-> (0 <= ts)%Q /\ (ts <= 3 # 10)%Q.
Proof.
  unfold in_range. rewrite andb_true_iff, !Qle_bool_iff. reflexivity.
Qed.



(** X13.  A [test_split] below 0 or above 0.3 fails the first
    assertion: nothing is read and the generator is not reseeded. *)
Theorem get_dataset_rejects_out_of_range data_file (ts : Q) w :
  (ts < 0)%Q \/ (3 # 10 < ts)%Q ->
  Dataset.get_dataset sgn_tree bkg_tree row_of data_file ts w = (Raise AssertionError, w).
Proof.
  intros H. apply get_dataset_rejects.
  destruct (in_range ts) eqn:E; [|reflexivity].
  apply in_range_iff in E. lra.
Qed.




(** X18.  When both trees are empty, [get_dataset] returns four empty
    arrays: every slice and label list is empty, so both length
    assertions hold. *)
Theorem get_dataset_of_empty_trees data_file ts w trees :
  in_range ts = true ->
  disk w !! data_file = Some trees ->
  trees !! sgn_tree = Some [] ->
  trees !! bkg_tree = Some [] ->
  exists Xtr Xte,
    fst (Dataset.get_dataset sgn_tree bkg_tree row_of data_file ts w)
      = Ok ((Xtr, []), (Xte, [])) /\
    items Xtr = [] /\ items Xte = [].
Proof.
  intros Hr Hf Hs Hb.
  destruct (get_dataset_outcome sgn_tree bkg_tree row_of _ _ _ _ _ _ Hr Hf Hs Hb)
    as (Hout & _).
  inversion Hout as [Hne E | He Hw E | s b d Xtr Ytr Xte Yte HpS HpB WS WB H1 H2 H3 H4 H5 H6 E].
  - exfalso. apply Hne. tauto.
  - exfalso. apply Hw. split; intros _; reflexivity.
  - simpl in HpS, HpB. apply Permutation_nil_r in HpS, HpB. subst s b.
    change (pre_X_train ts [] []) with (@nil Entry) in H5.
    change (pre_X_test ts [] []) with (@nil Entry) in H6.
    apply Permutation_nil_r in H5, H6. subst Xtr Xte.
    destruct Ytr; [|discriminate]. destruct Yte; [|discriminate].
    eexists _, _. split; [reflexivity|]. split; reflexivity.
Qed.

(** X19.  A missing file or a missing tree is an [OSError] of
    [root2array]; the generator has not been reseeded at that point and
    the disk is as before. *)
Theorem get_dataset_missing_data data_file ts w :
  in_range ts = true ->
  disk w !! data_file = None \/
  (exists trees, disk w !! data_file = Some trees /\
                 (trees !! sgn_tree = None \/ trees !! bkg_tree = None)) ->
  fst (Dataset.get_dataset sgn_tree bkg_tree row_of data_file ts w) = Raise OSError /\
  rng (snd (Dataset.get_dataset sgn_tree bkg_tree row_of data_file ts w)) = rng w /\
  disk (snd (Dataset.get_dataset sgn_tree bkg_tree row_of data_file ts w)) = disk w.
Proof.
  unfold in_range. intros Hr H. unfold Dataset.get_dataset.
  erewrite bind_ok by (rewrite Hr; reflexivity).
  destruct H as [Hf|(trees & Hf & Ht)].
  - erewrite bind_raise by (unfold root2array; rewrite Hf; reflexivity). auto.
  - destruct (trees !! sgn_tree) as [signal|] eqn:Hs.
    + destruct Ht as [?|Hb]; [discriminate|].
      erewrite bind_ok by (unfold root2array; rewrite Hf, Hs; reflexivity).
      erewrite bind_raise by (unfold root2array; simpl; rewrite Hf, Hb; reflexivity). auto.
    + erewrite bind_raise by (unfold root2array; rewrite Hf, Hs; reflexivity). auto.
Qed.

(** X20.  After a call that returns, the state of NumPy's global
    generator does not depend on its state before the call. *)
Theorem get_dataset_resets_the_generator data_file ts (w1 w2 : World) :
  disk w1 !! data_file = disk w2 !! data_file ->
  is_ok (fst (Dataset.get_dataset sgn_tree bkg_tree row_of data_file ts w1)) = true ->
  rng (snd (Dataset.get_dataset sgn_tree bkg_tree row_of data_file ts w1)) =
  rng (snd (Dataset.get_dataset sgn_tree bkg_tree row_of data_file ts w2)).
Proof.
  intros H Hok.
  destruct (relates_get_dataset sgn_tree bkg_tree row_of data_file ts w1 w2 H) as [_ Hw].
  destruct (Hw Hok) as [Hg _]. exact Hg.
Qed.
End DatasetSplits.

(** ** Shapes through the networks *)

Section ShapeFacts.
Import Shapes.

Lemma fold_mul_scale (l : list Z) (a : Z) : fold_left Z.mul l a = a * fold_left Z.mul l 1.
Proof.
  revert a. induction l as [|x l IH]; intros a; cbn [fold_left]; [lia|].
  rewrite (IH (a * x)), (IH (1 * x)). lia.
Qed.

Lemma numel_cons (b : Z) (rest : shape) :
  numel (b :: rest) = b * num_flat_features (b :: rest).
Proof.
  unfold numel, num_flat_features. cbn [fold_left tail].
  rewrite fold_mul_scale. change (fun num_features s : Z => num_features * s) with Z.mul. lia.
Qed.

Lemma view_rows_flat (b : Z) (rest : shape) :
  1 <= num_flat_features (b :: rest) ->
  view_rows (num_flat_features (b :: rest)) (b :: rest)
    = Ok [b; num_flat_features (b :: rest)].
Proof.
  intros Hn. unfold view_rows. rewrite numel_cons.
  rewrite Z.mod_mul, Z.div_mul by lia.
  destruct (Z.leb_spec 1 (num_flat_features (b :: rest))); [reflexivity | lia].
Qed.




(** X21.  [x.view(-1, self.num_flat_features(x))] keeps the batch
    dimension and the number of elements: a tensor of shape
    [b :: rest] becomes [(b, num_flat_features)]. *)
Theorem flattening_keeps_the_batch (b : Z) (rest : shape) :
  1 <= num_flat_features (b :: rest) ->
  view_rows (num_flat_features (b :: rest)) (b :: rest)
    = Ok [b; num_flat_features (b :: rest)] /\
  numel [b; num_flat_features (b :: rest)] = numel (b :: rest).
Proof.
  intros Hn. split; [apply view_rows_flat; exact Hn|].
  rewrite (numel_cons b rest). cbv [numel fold_left]. ring.
Qed.



End ShapeFacts.

(** ** Further runs on the small frameworks

  The first runs take the settings of the LSTM notebook: thirty
  epochs, an initial rate of 0.001, batches of 64 and [decay = 10]. *)



Lemma train_zero_decay_raises_witness :
  @Trainer.train Toy.torch Toy.trainer Toy.inputs Toy.labels 30 (1 # 1000)%Q 64 0
    true (Some "train.log") Toy.host = (Raise ZeroDivisionError, Toy.host).
Proof.
  apply (@train_zero_decay_raises Toy.torch Toy.trainer Toy.inputs Toy.labels 30
           (1 # 1000)%Q 64 true (Some "train.log") Toy.host);
    [reflexivity | discriminate | lia | lia].
Defined.

Lemma train_without_epochs_witness :
  @Trainer.train Toy.torch Toy.trainer Toy.inputs Toy.labels 0 (1 # 1000)%Q 64 10
    true (Some "train.log") Toy.host =
  (Ok ([], @Trainer.Build_Trainer Toy.torch
             (@Trainer.Build_Net Toy.torch
                (Trainer.arch (Trainer.net Toy.trainer))
                (Trainer.state_dict (Trainer.net Toy.trainer)) true)
             (Trainer.cuda_flag Toy.trainer)),
   @Trainer.Build_World Toy.torch (Trainer.gen Toy.host)
     (Trainer.stdout Toy.host ++ [Trainer.TextLine "Finished Training"])
     (Trainer.files Toy.host)).
Proof.
  apply (@train_without_epochs Toy.torch Toy.trainer Toy.inputs Toy.labels 0
           (1 # 1000)%Q 64 10 true (Some "train.log") Toy.host);
    [reflexivity | discriminate | lia | lia].
Defined.

Lemma train_rejects_bad_arguments_witness :
  exists e,
    @Trainer.train Toy.torch Toy.trainer Toy.inputs [0; 1] 30 (1 # 1000)%Q 64 10
      true None Toy.host = (Raise e, Toy.host) /\
    (length Toy.inputs <> length [0; 1] -> e = AssertionError) /\
    (length Toy.inputs = length [0; 1] -> e = ValueError).
Proof.
  apply (@train_rejects_bad_arguments Toy.torch Toy.trainer Toy.inputs [0; 1] 30
           (1 # 1000)%Q 64 10 true None Toy.host).
  left. simpl. lia.
Defined.


Lemma train_frame_witness :
  exists hist self' w',
    @Trainer.train Toy.torch Toy.trainer [[1 # 1024]]%Q [0] 1 (1 # 1000)%Q 64 5000
      true None Toy.host = (Ok (hist, self'), w') /\
    Trainer.arch (Trainer.net self') = Trainer.arch (Trainer.net Toy.trainer) /\
    Trainer.training (Trainer.net self') = true /\
    Trainer.cuda_flag self' = Trainer.cuda_flag Toy.trainer /\
    (@None string = None -> Trainer.files w' = Trainer.files Toy.host).
Proof.
  set (r := @Trainer.train Toy.torch Toy.trainer [[1 # 1024]]%Q [0] 1 (1 # 1000)%Q 64 5000
              true None Toy.host).
  assert (Hrun : r = (Ok (match fst r with Ok (hist, _) => hist | Raise _ => [] end,
                          match fst r with Ok (_, self') => self' | Raise _ => Toy.trainer end),
                      snd r)) by reflexivity.
  eexists _, _, _. split; [exact Hrun|].
  exact (@train_frame Toy.torch Toy.trainer [[1 # 1024]]%Q [0] 1 (1 # 1000)%Q 64 5000
           true None Toy.host _ _ _ Hrun).
Defined.

Lemma predict_failures_witness :
  @Trainer.predict Toy.torch Toy.trainer [[1; 2]; []]%Q Toy.host
    = (Raise ValueError, Toy.host) /\
  @Trainer.score Toy.torch Toy.trainer [[1; 2]; []]%Q [1; 0] Toy.host
    = (Raise ValueError, Toy.host).
Proof.
  apply (@predict_failures Toy.torch Toy.trainer [[1; 2]; []]%Q [1; 0] Toy.host ValueError).
  right. split; [reflexivity|].
  exists [[1; 2]; []]%Q. split; [reflexivity|].
  apply Exists_cons_tl, Exists_cons_hd. reflexivity.
Defined.

Lemma load_model_of_missing_file_witness :
  @Trainer.load_model Toy.torch Toy.trainer "net.pt" None Toy.host
    = (Raise OSError, Toy.host).
Proof.
  apply (@load_model_of_missing_file Toy.torch Toy.trainer "net.pt" None Toy.host).
  reflexivity.
Defined.

Lemma load_model_rejects_other_keys_witness :
  exists w1,
    @Trainer.save_model Toy.torch Toy.trainer "net.pt" None Toy.host = (Ok tt, w1) /\
    @Trainer.load_model Toy.torch
      (@Trainer.Build_Trainer Toy.torch
         (@Trainer.Build_Net Toy.torch tt {[ "b" := (1 # 2)%Q ]} false) false)
      "net.pt" None w1 = (Raise RuntimeError, w1).
Proof.
  apply (@load_model_rejects_other_keys Toy.torch Toy.trainer
           (@Trainer.Build_Trainer Toy.torch
              (@Trainer.Build_Net Toy.torch tt {[ "b" := (1 # 2)%Q ]} false) false)
           "net.pt" None None Toy.host).
  vm_compute. discriminate.
Defined.



Lemma get_dataset_rejects_out_of_range_witness :
  @Dataset.get_dataset Toy.numpy "sgn" "bkg" id "data.root" (1 # 2)%Q (Toy.world 0)
    = (Raise AssertionError, Toy.world 0).
Proof.
  apply (@get_dataset_rejects_out_of_range Toy.numpy "sgn" "bkg" id "data.root"
           (1 # 2)%Q (Toy.world 0)).
  right. reflexivity.
Defined.





Lemma get_dataset_of_empty_trees_witness :
  exists Xtr Xte,
    fst (@Dataset.get_dataset Toy.numpy "sgn" "bkg" id "data.root" (1 # 5)%Q
           (@Dataset.Build_World Toy.numpy 0%nat
              {[ "data.root" := {[ "sgn" := []; "bkg" := [] ]} ]} []))
      = Ok ((Xtr, []), (Xte, [])) /\
    Dataset.items Xtr = [] /\ Dataset.items Xte = [].
Proof.
  apply (@get_dataset_of_empty_trees Toy.numpy "sgn" "bkg" id "data.root" (1 # 5)%Q
           (@Dataset.Build_World Toy.numpy 0%nat
              {[ "data.root" := {[ "sgn" := []; "bkg" := [] ]} ]} [])
           {[ "sgn" := []; "bkg" := [] ]});
    reflexivity.
Defined.

Lemma get_dataset_missing_data_witness :
  fst (@Dataset.get_dataset Toy.numpy "sgn" "bkg" id "other.root" (1 # 5)%Q (Toy.world 3))
    = Raise OSError /\
  Dataset.rng
    (snd (@Dataset.get_dataset Toy.numpy "sgn" "bkg" id "other.root" (1 # 5)%Q (Toy.world 3)))
    = Dataset.rng (Toy.world 3) /\
  Dataset.disk
    (snd (@Dataset.get_dataset Toy.numpy "sgn" "bkg" id "other.root" (1 # 5)%Q (Toy.world 3)))
    = Dataset.disk (Toy.world 3).
Proof.
  apply (@get_dataset_missing_data Toy.numpy "sgn" "bkg" id "other.root" (1 # 5)%Q
           (Toy.world 3)); [reflexivity|].
  left. reflexivity.
Defined.

Lemma get_dataset_resets_the_generator_witness :
  Dataset.rng
    (snd (@Dataset.get_dataset Toy.numpy "sgn" "bkg" id "data.root" (1 # 5)%Q (Toy.world 3)))
  = Dataset.rng
    (snd (@Dataset.get_dataset Toy.numpy "sgn" "bkg" id "data.root" (1 # 5)%Q (Toy.world 7))).
Proof.
  apply (@get_dataset_resets_the_generator Toy.numpy "sgn" "bkg" id "data.root" (1 # 5)%Q
           (Toy.world 3) (Toy.world 7)); [reflexivity|].
  vm_compute. reflexivity.
Defined.

(** The shapes of the two notebooks: [Trainer(imgsize=32, num_classes=2)]
    on batches of 64 images, and [Trainer(10, 30, 2, 256)] on batches
    of 64 rows of 300 features. *)

Lemma flattening_keeps_the_batch_witness :
  Shapes.view_rows (Shapes.num_flat_features [64; 8; 32; 32]) [64; 8; 32; 32]
    = Ok [64; Shapes.num_flat_features [64; 8; 32; 32]] /\
  Shapes.numel [64; Shapes.num_flat_features [64; 8; 32; 32]]
    = Shapes.numel [64; 8; 32; 32].
Proof.
  apply (flattening_keeps_the_batch 64 [8; 32; 32]).
  vm_compute. discriminate.
Defined.



